(** * Node-group resolution for the machine-API autoscaler provider

    A shallow embedding of the read side of the provider: the annotation
    parser (scaling bounds, capacity hints), the owner-reference helpers,
    the machine controller's lookups over the informer caches, the
    node-group catalog, the node-to-group resolver and the cluster
    manager's refresh gate.

    Go values are modelled as follows.
    - [int] is a 64-bit integer, carried as [Z]; every subtraction the
      code performs on it is wrapped explicitly ([int_sub]).
    - [map[string]string] is a [gmap string string]; a lookup that Go
      writes [v, found := m[k]] is [m !! k].
    - a result made of a pointer to [T] and an error is a
      [result (option T)]: [Ok None] is Go's [(nil, nil)].
    - a pair [(int, error)] whose value is read next to a tolerated
      error is kept as a pair.
    - [DeepCopy] is the identity: values are immutable here. *)

From Stdlib Require Import ZArith Lia String Ascii List Bool.
From stdpp Require Import base option list gmap strings.

Local Open Scope string_scope.
Local Open Scope list_scope.
Local Open Scope Z_scope.

(** ** Errors *)

(** [strconv.NumError.Err] is one of two sentinels. *)
Inductive NumErrorKind : Type :=
| ErrSyntax
| ErrRange.

(** Every error value the embedded code can build.  The four annotation
    sentinels are package-level variables compared by identity in the
    source, hence constructors here.  [Wrapf cause msg] is
    [errors.Wrapf(cause, "%s", msg)]: a fresh error, equal to no
    sentinel.  [ExternalError] stands for an error produced by a
    collaborator outside the embedded code (informer store, lister,
    quantity parser, snapshot builder). *)
Inductive error : Type :=
| errMissingMinAnnotation
| errMissingMaxAnnotation
| errInvalidMinAnnotation
| errInvalidMaxAnnotation
| NumError (func num : string) (kind : NumErrorKind)
| Wrapf (cause msg : error)
| InternalUnexpectedType
| InternalExpectedLen1 (got : nat)
| UnknownMachineDeployment (key : string)
| UnknownMachineDeploymentCause (key : string) (cause : error)
| FailedToBuildNodegroup (node : string) (cause : error)
| ErrorListingMachines (cause : error)
| UnknownNode (name : string)
| ExternalError (msg : string).

Inductive result (A : Type) : Type :=
| Ok (a : A)
| Err (e : error).
Arguments Ok {A} a.
Arguments Err {A} e.

(** The spec's two kinds of bounds failure.  A wrapped error carries the
    message of the sentinel it was wrapped with. *)
Inductive BoundErrorKind : Type :=
| MissingBound
| InvalidBoundValue.

Fixpoint boundErrorKind (e : error) : option BoundErrorKind :=
  match e with
  | errMissingMinAnnotation | errMissingMaxAnnotation => Some MissingBound
  | errInvalidMinAnnotation | errInvalidMaxAnnotation => Some InvalidBoundValue
  | Wrapf _ msg => boundErrorKind msg
  | _ => None
  end.

(** ** Machine integers *)

Definition intSize : Z := 64.
Definition minInt : Z := - 2 ^ (intSize - 1).
Definition maxInt : Z := 2 ^ (intSize - 1) - 1.
Definition maxUint64 : Z := 2 ^ 64 - 1.

(** Two's-complement wrap-around of a mathematical integer into [int]. *)
Definition wrapInt (z : Z) : Z :=
  (z + 2 ^ (intSize - 1)) mod 2 ^ intSize - 2 ^ (intSize - 1).

Definition int_sub (a b : Z) : Z := wrapInt (a - b).

(** ** strconv.Atoi *)

Definition isDigit (c : ascii) : bool :=
  let n := Z.of_N (N_of_ascii c) in (48 <=? n) && (n <=? 57).

Definition digitValue (c : ascii) : Z := Z.of_N (N_of_ascii c) - 48.

(** The digit loop of [ParseUint] in base 10 with 64 bits: it stops at
    the first byte that is not a digit (syntax error) or at the first
    digit that takes the value past [maxUint64] (range error). *)
Fixpoint parseDigits (n : Z) (s : string) : NumErrorKind + Z :=
  match s with
  | EmptyString => inr n
  | String c rest =>
      if isDigit c then
        let n1 := n * 10 + digitValue c in
        if maxUint64 <? n1 then inl ErrRange else parseDigits n1 rest
      else inl ErrSyntax
  end.

Definition isSign (c : ascii) : bool :=
  (Ascii.eqb c "-" || Ascii.eqb c "+")%char.

(** [Atoi]: an optional sign, then at least one decimal digit, the value
    within [int].  The fast path of the source (short inputs) and the
    [ParseInt] path agree on this. *)
Definition Atoi (s : string) : result Z :=
  match s with
  | EmptyString => Err (NumError "Atoi" s ErrSyntax)
  | String c rest =>
      let neg := Ascii.eqb c "-"%char in
      let body := if isSign c then rest else s in
      match body with
      | EmptyString => Err (NumError "Atoi" s ErrSyntax)
      | _ =>
          match parseDigits 0 body with
          | inl k => Err (NumError "Atoi" s k)
          | inr un =>
              if neg then
                if 2 ^ (intSize - 1) <? un then Err (NumError "Atoi" s ErrRange)
                else Ok (- un)
              else
                if 2 ^ (intSize - 1) <=? un then Err (NumError "Atoi" s ErrRange)
                else Ok un
          end
      end
  end.

(** ** Annotation keys *)

Definition nodeGroupInstanceCPUCapacity : string :=
  "machine.openshift.io/instance-cpu-capacity".
Definition nodeGroupInstanceMemoryCapacity : string :=
  "machine.openshift.io/instance-memory-capacity".
Definition nodeGroupInstancePodCapacity : string :=
  "machine.openshift.io/instance-pod-capacity".
Definition nodeGroupMaxSizeAnnotationKey : string :=
  "machine.openshift.io/cluster-api-autoscaler-node-group-max-size".
Definition nodeGroupMinSizeAnnotationKey : string :=
  "machine.openshift.io/cluster-api-autoscaler-node-group-min-size".
Definition nodeGroupScaleFromZero : string :=
  "machine.openshift.io/scale-from-zero".

(** ** Scaling bounds *)

(** [minSize]: the value and the error of the source's pair; the value
    is 0 whenever the error is set. *)
Definition minSize (annotations : gmap string string) : Z * option error :=
  match annotations !! nodeGroupMinSizeAnnotationKey with
  | None => (0, Some errMissingMinAnnotation)
  | Some val =>
      match Atoi val with
      | Err err => (0, Some (Wrapf err errInvalidMinAnnotation))
      | Ok i => (i, None)
      end
  end.

Definition maxSize (annotations : gmap string string) : Z * option error :=
  match annotations !! nodeGroupMaxSizeAnnotationKey with
  | None => (0, Some errMissingMaxAnnotation)
  | Some val =>
      match Atoi val with
      | Err err => (0, Some (Wrapf err errInvalidMaxAnnotation))
      | Ok i => (i, None)
      end
  end.

(** [err != nil && err != errMissingMinAnnotation]: the error is returned
    unless it is the "missing" sentinel itself. *)
Definition fatalUnless (tolerated : error -> bool) (err : option error)
  : option error :=
  match err with
  | Some e => if tolerated e then None else Some e
  | None => None
  end.

Definition isMissingMin (e : error) : bool :=
  match e with errMissingMinAnnotation => true | _ => false end.

Definition isMissingMax (e : error) : bool :=
  match e with errMissingMaxAnnotation => true | _ => false end.

Definition parseScalingBounds (annotations : gmap string string)
  : Z * Z * option error :=
  let '(minSize, err) := minSize annotations in
  match fatalUnless isMissingMin err with
  | Some err => (0, 0, Some err)
  | None =>
      if minSize <? 0 then (0, 0, Some errInvalidMinAnnotation)
      else
        let '(maxSize, err) := maxSize annotations in
        match fatalUnless isMissingMax err with
        | Some err => (0, 0, Some err)
        | None =>
            if maxSize <? 0 then (0, 0, Some errInvalidMaxAnnotation)
            else if maxSize <? minSize then (0, 0, Some errInvalidMaxAnnotation)
            else (minSize, maxSize, None)
        end
  end.

Definition scaleFromZeroEnabled (annotations : gmap string string) : bool :=
  bool_decide (default "" (annotations !! nodeGroupScaleFromZero) = "true").

(** ** Capacity hints *)

Section Capacity.

(** [resource.Quantity] and [resource.ParseQuantity] belong to the
    apimachinery library; the parser is a parameter of the embedding. *)
Variable Quantity : Type.
Variable ParseQuantity : string -> result Quantity.

(** The shared body of the three parsers: [val, exists := annotations[key];
    exists && val != ""]. *)
Definition parseCapacity (key : string) (annotations : gmap string string)
  : result (option Quantity) :=
  match annotations !! key with
  | Some val =>
      if negb (String.eqb val "") then
        match ParseQuantity val with
        | Err err => Err err
        | Ok q => Ok (Some q)
        end
      else Ok None
  | None => Ok None
  end.

Definition parseCPUCapacity := parseCapacity nodeGroupInstanceCPUCapacity.
Definition parseMemoryCapacity := parseCapacity nodeGroupInstanceMemoryCapacity.
Definition parsePodCapacity := parseCapacity nodeGroupInstancePodCapacity.

(** Returns [(cpu, mem, pods)]; memory is parsed first. *)
Definition parseCapacityValues (annotations : gmap string string)
  : result (option Quantity * option Quantity * option Quantity) :=
  match parseMemoryCapacity annotations with
  | Err err => Err err
  | Ok mem =>
      match parseCPUCapacity annotations with
      | Err err => Err err
      | Ok cpu =>
          match parsePodCapacity annotations with
          | Err err => Err err
          | Ok pods => Ok (cpu, mem, pods)
          end
      end
  end.

End Capacity.

Arguments parseCapacity {Quantity} ParseQuantity key annotations.
Arguments parseCPUCapacity {Quantity} ParseQuantity annotations.
Arguments parseMemoryCapacity {Quantity} ParseQuantity annotations.
Arguments parsePodCapacity {Quantity} ParseQuantity annotations.
Arguments parseCapacityValues {Quantity} ParseQuantity annotations.

(** ** Watched resources *)

Record OwnerReference : Type := {
  ref_Kind : string;
  ref_Name : string;
  ref_UID : string
}.

Record ObjectReference : Type := {
  oref_Kind : string;
  oref_Name : string
}.

Record Node : Type := {
  node_Name : string;
  node_Annotations : gmap string string;
  node_ProviderID : string            (* Spec.ProviderID *)
}.

Record Machine : Type := {
  m_Namespace : string;
  m_Name : string;
  m_Labels : gmap string string;
  m_OwnerReferences : list OwnerReference;
  m_ProviderID : option string;       (* Spec.ProviderID, a pointer *)
  m_NodeRef : option ObjectReference  (* Status.NodeRef, a pointer *)
}.

Record MachineSet : Type := {
  ms_Namespace : string;
  ms_Name : string;
  ms_UID : string;
  ms_Labels : gmap string string;
  ms_Annotations : gmap string string;
  ms_OwnerReferences : list OwnerReference;
  ms_Replicas : option Z              (* Spec.Replicas, a pointer to int32 *)
}.

Record MachineDeployment : Type := {
  md_Namespace : string;
  md_Name : string;
  md_UID : string;
  md_Annotations : gmap string string;
  md_Replicas : option Z
}.

(** ** Owner references *)

Fixpoint machineOwnerRef_refs (refs : list OwnerReference)
  : option OwnerReference :=
  match refs with
  | [] => None
  | ref :: rest =>
      if String.eqb (ref_Kind ref) "MachineSet"
         && negb (String.eqb (ref_Name ref) "")
      then Some ref
      else machineOwnerRef_refs rest
  end.

Definition machineOwnerRef (machine : Machine) : option OwnerReference :=
  machineOwnerRef_refs (m_OwnerReferences machine).

Definition machineIsOwnedByMachineSet (machine : Machine)
  (machineSet : MachineSet) : bool :=
  match machineOwnerRef machine with
  | Some ref => String.eqb (ref_UID ref) (ms_UID machineSet)
  | None => false
  end.

Fixpoint machineSetMachineDeploymentRef_refs (refs : list OwnerReference)
  : option OwnerReference :=
  match refs with
  | [] => None
  | ref :: rest =>
      if String.eqb (ref_Kind ref) "MachineDeployment" then Some ref
      else machineSetMachineDeploymentRef_refs rest
  end.

Definition machineSetMachineDeploymentRef (machineSet : MachineSet)
  : option OwnerReference :=
  machineSetMachineDeploymentRef_refs (ms_OwnerReferences machineSet).

Definition machineSetHasMachineDeploymentOwnerRef (machineSet : MachineSet)
  : bool :=
  match machineSetMachineDeploymentRef machineSet with
  | Some _ => true
  | None => false
  end.

Definition machineSetIsOwnedByMachineDeployment (machineSet : MachineSet)
  (machineDeployment : MachineDeployment) : bool :=
  match machineSetMachineDeploymentRef machineSet with
  | Some ref => String.eqb (ref_UID ref) (md_UID machineDeployment)
  | None => false
  end.

(** ** Node groups *)

Inductive scalableResource : Type :=
| MachineSetResource (machineSet : MachineSet)
| MachineDeploymentResource (machineDeployment : MachineDeployment).

(** Modelled from the spec: the [nodegroup] type, its constructors
    [newNodegroupFromMachineSet] and [newNodegroupFromMachineDeployment]
    and its accessors [MinSize] and [MaxSize] are not among the source
    files.  A scaling group wraps one concrete resource and carries the
    minimum and maximum size derived from that resource's metadata by the
    bounds parser; building it fails when the bounds parser fails. *)
Record nodegroup : Type := {
  ng_resource : scalableResource;
  ng_minSize : Z;
  ng_maxSize : Z
}.

(** Modelled from the spec: the accessor [MinSize], absent from the
    source files; the group's minimum size. *)
Definition MinSize (ng : nodegroup) : Z := ng_minSize ng.

(** Modelled from the spec: the accessor [MaxSize], absent from the
    source files; the group's maximum size. *)
Definition MaxSize (ng : nodegroup) : Z := ng_maxSize ng.

(** Modelled from the spec: the shared body of the two absent
    constructors; the bounds are derived from the resource's metadata,
    and invalid bounds reject the group. *)
Definition newNodegroup (resource : scalableResource)
  (annotations : gmap string string) : result nodegroup :=
  match parseScalingBounds annotations with
  | (_, _, Some err) => Err err
  | (minSize, maxSize, None) =>
      Ok {| ng_resource := resource; ng_minSize := minSize; ng_maxSize := maxSize |}
  end.

(** ** Informer caches *)

(** What a store holds behind [interface{}]; the type assertions of the
    source are matches on the constructor.  The stores hold non-nil
    pointers, as the informers deliver them. *)
Inductive Obj : Type :=
| ObjNode (node : Node)
| ObjMachine (machine : Machine)
| ObjMachineSet (machineSet : MachineSet)
| ObjMachineDeployment (machineDeployment : MachineDeployment).

(** The part of [cache.Indexer] the controller calls.  [GetByKey]
    answers [(item, exists, err)]; [ByIndex] takes the index name and the
    indexed value. *)
Record Informer : Type := {
  GetByKey : string -> result (option Obj);
  ByIndex : string -> string -> result (list Obj)
}.

Definition machineProviderIDIndex : string :=
  "openshiftmachineapi-machineProviderIDIndex".
Definition nodeProviderIDIndex : string :=
  "openshiftmachineapi-nodeProviderIDIndex".

Definition indexMachineByProviderID (obj : Obj) : list string :=
  match obj with
  | ObjMachine machine =>
      match m_ProviderID machine with
      | Some providerID =>
          if negb (String.eqb providerID "") then [providerID] else []
      | None => []
      end
  | _ => []
  end.

Definition indexNodeByProviderID (obj : Obj) : list string :=
  match obj with
  | ObjNode node =>
      if negb (String.eqb (node_ProviderID node) "") then [node_ProviderID node]
      else []
  | _ => []
  end.

(** A store over an explicit list of keyed items with one index, in the
    way the thread-safe store of client-go answers: used to build
    concrete caches. *)
Definition informerOf (indexName : string) (indexFunc : Obj -> list string)
  (items : list (string * Obj)) : Informer :=
  {| GetByKey := fun key =>
       Ok (snd <$> List.find (fun kv => String.eqb (fst kv) key) items);
     ByIndex := fun name indexedValue =>
       if String.eqb name indexName then
         Ok (List.filter
               (fun obj => existsb (String.eqb indexedValue) (indexFunc obj))
               (snd <$> items))
       else Err (ExternalError "Index with name does not exist") |}.

(** ** The machine controller *)

(** The informers and the deployment switch of the controller. *)
Record machineController : Type := {
  machineDeploymentInformer : Informer;
  machineInformer : Informer;
  machineSetInformer : Informer;
  nodeInformer : Informer;
  enableMachineDeployments : bool
}.


Definition listMachineSets (c : machineController) : result (list MachineSet) :=
  Ok [].

Definition listMachineDeployments (c : machineController)
  : result (list MachineDeployment) :=
  Ok [].

(** Modelled from the spec: [newNodegroupFromMachineSet], absent from
    the source files; the group that wraps a MachineSet. *)
Definition newNodegroupFromMachineSet (c : machineController)
  (machineSet : MachineSet) : result nodegroup :=
  newNodegroup (MachineSetResource machineSet) (ms_Annotations machineSet).

(** Modelled from the spec: [newNodegroupFromMachineDeployment], absent
    from the source files; the group that wraps a MachineDeployment. *)
Definition newNodegroupFromMachineDeployment (c : machineController)
  (machineDeployment : MachineDeployment) : result nodegroup :=
  newNodegroup (MachineDeploymentResource machineDeployment)
               (md_Annotations machineDeployment).

(** [fmt.Sprintf("%s/%s", namespace, name)] *)
Definition storeKey (namespace name : string) : string :=
  (namespace ++ "/" ++ name)%string.

Definition Int32PtrDerefOr (ptr : option Z) (def : Z) : Z :=
  match ptr with
  | Some v => v
  | None => def
  end.

Definition findMachine (c : machineController) (id : string)
  : result (option Machine) :=
  match GetByKey (machineInformer c) id with
  | Err err => Err err
  | Ok None => Ok None
  | Ok (Some (ObjMachine machine)) => Ok (Some machine)
  | Ok (Some _) => Err InternalUnexpectedType
  end.

Definition findMachineDeployment (c : machineController) (id : string)
  : result (option MachineDeployment) :=
  match GetByKey (machineDeploymentInformer c) id with
  | Err err => Err err
  | Ok None => Ok None
  | Ok (Some (ObjMachineDeployment machineDeployment)) =>
      Ok (Some machineDeployment)
  | Ok (Some _) => Err InternalUnexpectedType
  end.

Definition findMachineOwner (c : machineController) (machine : Machine)
  : result (option MachineSet) :=
  match machineOwnerRef machine with
  | None => Ok None
  | Some machineOwnerRef =>
      match GetByKey (machineSetInformer c)
                     (storeKey (m_Namespace machine) (ref_Name machineOwnerRef)) with
      | Err err => Err err
      | Ok None => Ok None
      | Ok (Some (ObjMachineSet machineSet)) =>
          if negb (machineIsOwnedByMachineSet machine machineSet) then Ok None
          else Ok (Some machineSet)
      | Ok (Some _) => Err InternalUnexpectedType
      end
  end.

Definition findNodeByProviderID (c : machineController) (providerID : string)
  : result (option Node) :=
  match ByIndex (nodeInformer c) nodeProviderIDIndex providerID with
  | Err err => Err err
  | Ok objs =>
      match objs with
      | [] => Ok None
      | _ :: _ :: _ => Err (InternalExpectedLen1 (length objs))
      | [obj] =>
          match obj with
          | ObjNode node => Ok (Some node)
          | _ => Err InternalUnexpectedType
          end
      end
  end.

Definition findNodeByNodeName (c : machineController) (name : string)
  : result (option Node) :=
  match GetByKey (nodeInformer c) name with
  | Err err => Err err
  | Ok None => Ok None
  | Ok (Some (ObjNode node)) => Ok (Some node)
  | Ok (Some _) => Err InternalUnexpectedType
  end.

Section Controller.

(** The annotation on a Node that names its Machine; the constant is
    declared outside the source files at hand. *)
Variable machineAnnotationKey : string.

Definition findMachineByProviderID (c : machineController)
  (providerID : string) : result (option Machine) :=
  (* the node is looked up when the machine index has no entry:
     actuators that leave the machine's providerID unset *)
  let viaNode :=
    match findNodeByProviderID c providerID with
    | Err err => Err err
    | Ok None => Ok None
    | Ok (Some node) =>
        findMachine c (default "" (node_Annotations node !! machineAnnotationKey))
    end in
  match ByIndex (machineInformer c) machineProviderIDIndex providerID with
  | Err err => Err err
  | Ok objs =>
      match objs with
      | _ :: _ :: _ => Err (InternalExpectedLen1 (length objs))
      | [obj] =>
          match obj with
          | ObjMachine machine => Ok (Some machine)
          | _ => Err InternalUnexpectedType
          end
      | [] => viaNode
      end
  end.



(** One turn of the loop of [machineSetNodeNames], from the test of
    [Status.NodeRef] on: [Ok None] is [continue] (or a node that is not
    in the cache), [Ok (Some id)] appends [id]. *)
Definition nodeByNodeRef (c : machineController) (machine : Machine)
  : result (option string) :=
  match m_NodeRef machine with
  | None => Ok None
  | Some nodeRef =>
      if negb (String.eqb (oref_Kind nodeRef) "Node") then Ok None
      else
        match findNodeByNodeName c (oref_Name nodeRef) with
        | Err _ => Err (UnknownNode (oref_Name nodeRef))
        | Ok (Some node) => Ok (Some (node_ProviderID node))
        | Ok None => Ok None
        end
  end.

(** One whole turn of that loop. *)
Definition machineNode (c : machineController) (machine : Machine)
  : result (option string) :=
  match m_ProviderID machine with
  | Some providerID =>
      if negb (String.eqb providerID "") then
        match findNodeByProviderID c providerID with
        | Err err => Err err
        | Ok (Some node) => Ok (Some (node_ProviderID node))
        | Ok None => nodeByNodeRef c machine
        end
      else nodeByNodeRef c machine
  | None => nodeByNodeRef c machine
  end.

Fixpoint machineSetNodeNames_loop (c : machineController)
  (machines : list Machine) (nodes : list string) : result (list string) :=
  match machines with
  | [] => Ok nodes
  | machine :: rest =>
      match machineNode c machine with
      | Err err => Err err
      | Ok (Some id) => machineSetNodeNames_loop c rest (nodes ++ [id])
      | Ok None => machineSetNodeNames_loop c rest nodes
      end
  end.


(** [machineSetFilterFunc]: the closures passed in the source append to
    a captured slice, which is threaded here as the state [St]. *)
Definition machineSetFilterFunc (St : Type) : Type :=
  MachineSet -> St -> St * option error.

Fixpoint filterMachineSets_loop {St : Type} (f : machineSetFilterFunc St)
  (machineSets : list MachineSet) (st : St) : St * option error :=
  match machineSets with
  | [] => (st, None)
  | machineSet :: rest =>
      match f machineSet st with
      | (st', Some err) => (st', Some err)
      | (st', None) => filterMachineSets_loop f rest st'
      end
  end.

(** A listing error makes the source return [nil]: no error. *)
Definition filterMachineSets {St : Type} (c : machineController)
  (namespace : string) (f : machineSetFilterFunc St) (st : St)
  : St * option error :=
  match listMachineSets c with
  | Err _ => (st, None)
  | Ok machineSets => filterMachineSets_loop f machineSets st
  end.

Definition NamespaceAll : string := "".

Definition filterAllMachineSets {St : Type} (c : machineController)
  (f : machineSetFilterFunc St) (st : St) : St * option error :=
  filterMachineSets c NamespaceAll f st.

(** [ng.MaxSize()-ng.MinSize() > 0 && Int32PtrDerefOr(replicas, 0) > 0] *)
Definition canScale (ng : nodegroup) (replicas : option Z) : bool :=
  (0 <? int_sub (MaxSize ng) (MinSize ng)) && (0 <? Int32PtrDerefOr replicas 0).

(** The closure of [machineSetNodeGroups]. *)
Definition machineSetNodeGroups_func (c : machineController)
  : machineSetFilterFunc (list nodegroup) :=
  fun machineSet nodegroups =>
    if machineSetHasMachineDeploymentOwnerRef machineSet then (nodegroups, None)
    else
      match newNodegroupFromMachineSet c machineSet with
      | Err err => (nodegroups, Some err)
      | Ok ng =>
          if canScale ng (ms_Replicas machineSet)
          then (nodegroups ++ [ng], None)
          else (nodegroups, None)
      end.

Definition machineSetNodeGroups (c : machineController)
  : result (list nodegroup) :=
  match filterAllMachineSets c (machineSetNodeGroups_func c) [] with
  | (_, Some err) => Err err
  | (nodegroups, None) => Ok nodegroups
  end.

Fixpoint machineDeploymentNodeGroups_loop (c : machineController)
  (machineDeployments : list MachineDeployment) (nodegroups : list nodegroup)
  : result (list nodegroup) :=
  match machineDeployments with
  | [] => Ok nodegroups
  | md :: rest =>
      match newNodegroupFromMachineDeployment c md with
      | Err err => Err err
      | Ok ng =>
          (* add nodegroup iff it has the capacity to scale *)
          if canScale ng (md_Replicas md)
          then machineDeploymentNodeGroups_loop c rest (nodegroups ++ [ng])
          else machineDeploymentNodeGroups_loop c rest nodegroups
      end
  end.

Definition machineDeploymentNodeGroups (c : machineController)
  : result (list nodegroup) :=
  if negb (enableMachineDeployments c) then Ok []
  else
    match listMachineDeployments c with
    | Err err => Err err
    | Ok machineDeployments =>
        machineDeploymentNodeGroups_loop c machineDeployments []
    end.

Definition nodeGroups (c : machineController) : result (list nodegroup) :=
  match machineSetNodeGroups c with
  | Err err => Err err
  | Ok machineSets =>
      match machineDeploymentNodeGroups c with
      | Err err => Err err
      | Ok machineDeployments => Ok (machineSets ++ machineDeployments)
      end
  end.

(** We don't scale from 0, so a node's group needs a scale size of at
    least 1: [nodegroup.MaxSize()-nodegroup.MinSize() < 1] gives nil. *)
Definition atLeastOne (nodeName : string) (built : result nodegroup)
  : result (option nodegroup) :=
  match built with
  | Err err => Err (FailedToBuildNodegroup nodeName err)
  | Ok nodegroup =>
      if int_sub (MaxSize nodegroup) (MinSize nodegroup) <? 1 then Ok None
      else Ok (Some nodegroup)
  end.

Definition nodeGroupForNode (c : machineController) (node : Node)
  : result (option nodegroup) :=
  match findMachineByProviderID c (node_ProviderID node) with
  | Err err => Err err
  | Ok None => Ok None
  | Ok (Some machine) =>
      match findMachineOwner c machine with
      | Err err => Err err
      | Ok None => Ok None
      | Ok (Some machineSet) =>
          let fromMachineSet :=
            atLeastOne (node_Name node) (newNodegroupFromMachineSet c machineSet) in
          if enableMachineDeployments c then
            match machineSetMachineDeploymentRef machineSet with
            | Some ref =>
                let key := storeKey (ms_Namespace machineSet) (ref_Name ref) in
                match findMachineDeployment c key with
                | Err err => Err (UnknownMachineDeploymentCause key err)
                | Ok None => Err (UnknownMachineDeployment key)
                | Ok (Some machineDeployment) =>
                    atLeastOne (node_Name node)
                      (newNodegroupFromMachineDeployment c machineDeployment)
                end
            | None => fromMachineSet
            end
          else fromMachineSet
      end
  end.

End Controller.

(** ** The cluster manager's refresh gate *)

Section ClusterManager.

(** The snapshot type and [getClusterSnaphot], which builds one from
    the cluster, are declared outside the source files at hand. *)
Variable clusterSnapshot : Type.

(** [time.Time] and [time.Duration] in nanoseconds. *)
Definition Second : Z := 1000000000.
Definition refreshInterval : Z := 30 * Second.

(** The snapshot field is a pointer: [None] is nil. *)
Record clusterManager : Type := {
  lastRefresh : Z;
  clusterSnapshotOf : option clusterSnapshot
}.

Definition getClusterState (m : clusterManager) : option clusterSnapshot :=
  clusterSnapshotOf m.

Definition setClusterState (m : clusterManager) (s : option clusterSnapshot)
  : clusterManager :=
  {| lastRefresh := lastRefresh m; clusterSnapshotOf := s |}.

(** What one call of [Refresh] did, besides its result. *)
Inductive refreshed : Type :=
| Served
| Rebuilt.

(** [Refresh]: [now] is the clock read by the gate, [build] what
    [getClusterSnaphot] answers when it is called and [stamp] the
    clock read after a successful build.  The result is the manager
    afterwards, whether a build was run, and the returned error. *)
Definition hasSnapshot (m : clusterManager) : bool :=
  match clusterSnapshotOf m with
  | Some _ => true
  | None => false
  end.

Definition Refresh (m : clusterManager) (now : Z)
  (build : result (option clusterSnapshot)) (stamp : Z)
  : clusterManager * refreshed * option error :=
  if (now <? lastRefresh m + refreshInterval) && hasSnapshot m
  then (m, Served, None)
  else
    match build with
    | Ok s =>
        (setClusterState {| lastRefresh := stamp;
                            clusterSnapshotOf := clusterSnapshotOf m |} s,
         Rebuilt, None)
    | Err err => (m, Rebuilt, Some err)
    end.

End ClusterManager.

Arguments lastRefresh {clusterSnapshot} c.
Arguments clusterSnapshotOf {clusterSnapshot} c.
Arguments getClusterState {clusterSnapshot} m.
Arguments setClusterState {clusterSnapshot} m s.
Arguments hasSnapshot {clusterSnapshot} m.
Arguments Refresh {clusterSnapshot} m now build stamp.

(** ** The cluster manager's queries *)

Section ClusterQueries.

(** [types.MachineSet] is an interface declared outside the source files
    at hand; the queries call its [MinSize] and [MaxSize]. *)
Variable MachineSetT : Type.
Variable MachineSet_MinSize : MachineSetT -> Z.
Variable MachineSet_MaxSize : MachineSetT -> Z.

(** The two maps of the snapshot that the queries read. *)
Record snapshotMaps : Type := {
  MachineSetMap : gmap string MachineSetT;
  NodeToMachineSetMap : gmap string string
}.

(** [GetMachineSets]: the error of the source is always nil and is left
    out.  [None] is the nil-pointer dereference when the manager holds no
    snapshot.  Go visits the map in no fixed order; the order here is
    that of [map_to_list]. *)
Definition GetMachineSets (m : clusterManager snapshotMaps) (namespace : string)
  : option (list MachineSetT) :=
  match getClusterState m with
  | None => None
  | Some snapshot =>
      Some (List.filter
              (fun ms => 0 <? int_sub (MachineSet_MaxSize ms) (MachineSet_MinSize ms))
              (snd <$> map_to_list (MachineSetMap snapshot)))
  end.

(** [MachineSetForNode]: likewise; [Some None] is the nil result. *)
Definition MachineSetForNode (m : clusterManager snapshotMaps) (nodename : string)
  : option (option MachineSetT) :=
  match getClusterState m with
  | None => None
  | Some snapshot =>
      match NodeToMachineSetMap snapshot !! nodename with
      | Some key => Some (MachineSetMap snapshot !! key)
      | None => Some None
      end
  end.

End ClusterQueries.

Arguments MachineSetMap {MachineSetT} s.
Arguments NodeToMachineSetMap {MachineSetT} s.
Arguments GetMachineSets {MachineSetT} MachineSet_MinSize MachineSet_MaxSize m namespace.
Arguments MachineSetForNode {MachineSetT} m nodename.

(** * Concrete metadata and caches *)

Definition boundsOf (min max : string) : gmap string string :=
  <[nodeGroupMinSizeAnnotationKey := min]>
    (<[nodeGroupMaxSizeAnnotationKey := max]> ∅).

Definition onlyMin (min : string) : gmap string string :=
  {[nodeGroupMinSizeAnnotationKey := min]}.

(** A quantity parser that accepts nothing. *)
Definition rejectAll (val : string) : result Z :=
  Err (ExternalError "quantities must match the regular expression").

Definition emptyCapacities : gmap string string :=
  <[nodeGroupInstanceCPUCapacity := ""]>
    (<[nodeGroupInstanceMemoryCapacity := ""]>
       (<[nodeGroupInstancePodCapacity := ""]> ∅)).

Definition machineAnnotation : string := "machine.openshift.io/machine".

(** A controller over explicit cache contents: the stores and their
    provider-ID indices hold the same objects. *)
Definition cacheOf (nodes : list Node) (machines : list Machine)
  (machineSets : list MachineSet) (machineDeployments : list MachineDeployment)
  (enable : bool) : machineController :=
  {| machineDeploymentInformer :=
       informerOf "" (fun _ => [])
         ((fun md => (storeKey (md_Namespace md) (md_Name md), ObjMachineDeployment md))
            <$> machineDeployments);
     machineInformer :=
       informerOf machineProviderIDIndex indexMachineByProviderID
         ((fun m => (storeKey (m_Namespace m) (m_Name m), ObjMachine m)) <$> machines);
     machineSetInformer :=
       informerOf "" (fun _ => [])
         ((fun ms => (storeKey (ms_Namespace ms) (ms_Name ms), ObjMachineSet ms))
            <$> machineSets);
     nodeInformer :=
       informerOf nodeProviderIDIndex indexNodeByProviderID
         ((fun n => (node_Name n, ObjNode n)) <$> nodes);
     enableMachineDeployments := enable |}.

Definition mkNode (name providerID : string) : Node :=
  {| node_Name := name; node_Annotations := ∅; node_ProviderID := providerID |}.

Definition mkMachine (name ownerName ownerUID : string) (providerID : option string)
  (nodeRef : option ObjectReference) : Machine :=
  {| m_Namespace := "ns"; m_Name := name;
     m_Labels := {["group" := "A"]};
     m_OwnerReferences :=
       [{| ref_Kind := "MachineSet"; ref_Name := ownerName; ref_UID := ownerUID |}];
     m_ProviderID := providerID;
     m_NodeRef := nodeRef |}.

Definition mkMachineSet (name uid min max : string)
  (owners : list OwnerReference) (replicas : option Z) : MachineSet :=
  {| ms_Namespace := "ns"; ms_Name := name; ms_UID := uid;
     ms_Labels := {["group" := "A"]};
     ms_Annotations := boundsOf min max;
     ms_OwnerReferences := owners;
     ms_Replicas := replicas |}.

Definition mkMachineDeployment (name uid min max : string) (replicas : option Z)
  : MachineDeployment :=
  {| md_Namespace := "ns"; md_Name := name; md_UID := uid;
     md_Annotations := boundsOf min max;
     md_Replicas := replicas |}.

(** MachineSet A (uid 1, 3 replicas, bounds 1..5) with a machine it
    owns, and a machine whose owner reference carries A's name but
    another unique id. *)
Definition setA : MachineSet := mkMachineSet "A" "1" "1" "5" [] (Some 3).
Definition node1 : Node := mkNode "node-1" "aws:///i-1".
Definition node2 : Node := mkNode "node-2" "aws:///i-2".
Definition machineA1 : Machine :=
  mkMachine "a1" "A" "1" (Some "aws:///i-1") None.
Definition staleMachine : Machine :=
  mkMachine "a2" "A" "0" (Some "aws:///i-2") None.
Definition clusterA : machineController :=
  cacheOf [node1; node2] [machineA1; staleMachine] [setA] [] false.

(** The same with A owned by a MachineDeployment D that is not in the
    cache, and deployment grouping enabled. *)
Definition refD : OwnerReference :=
  {| ref_Kind := "MachineDeployment"; ref_Name := "D"; ref_UID := "9" |}.
Definition setOwnedByD : MachineSet := mkMachineSet "A" "1" "1" "5" [refD] (Some 3).
Definition clusterDangling : machineController :=
  cacheOf [node1] [machineA1] [setOwnedByD] [] true.

(** Two nodes indexed under one provider ID, and two machines likewise. *)
Definition clusterDuplicates : machineController :=
  cacheOf [mkNode "node-1" "aws:///i-1"; mkNode "node-1-bis" "aws:///i-1"]
          [machineA1; mkMachine "a1-bis" "A" "1" (Some "aws:///i-1") None]
          [setA] [] false.


(** MachineSet B (uid 2, bounds 2..2) with a machine it owns. *)
Definition setB : MachineSet := mkMachineSet "B" "2" "2" "2" [] (Some 2).
Definition machineB1 : Machine :=
  mkMachine "b1" "B" "2" (Some "aws:///i-3") None.
Definition node3 : Node := mkNode "node-3" "aws:///i-3".
Definition clusterAB : machineController :=
  cacheOf [node1; node3] [machineA1; machineB1] [setA; setB] [] false.

Definition groupA : nodegroup :=
  {| ng_resource := MachineSetResource setA; ng_minSize := 1; ng_maxSize := 5 |}.
Definition groupB : nodegroup :=
  {| ng_resource := MachineSetResource setB; ng_minSize := 2; ng_maxSize := 2 |}.

(** Members of A: a machine resolved by provider ID, one resolved by its
    node reference, one whose reference is not a Node, one with no
    reference, and one that matches A's labels but is owned by another
    unique id. *)
Definition nodeRefTo (kind name : string) : option ObjectReference :=
  Some {| oref_Kind := kind; oref_Name := name |}.
Definition machineByRef : Machine :=
  mkMachine "a3" "A" "1" None (nodeRefTo "Node" "node-2").
Definition machineWrongKind : Machine :=
  mkMachine "a4" "A" "1" None (nodeRefTo "Pod" "node-2").
Definition machineNoRef : Machine := mkMachine "a5" "A" "1" None None.
Definition clusterMembers : machineController :=
  cacheOf [node1; node2]
          [machineA1; machineWrongKind; machineNoRef; staleMachine; machineByRef]
          [setA] [] false.
Definition membersListed : list Machine :=
  [machineA1; machineWrongKind; machineNoRef; staleMachine; machineByRef].

(** A MachineSet and a MachineDeployment whose maximum is below their
    minimum, and a well-formed MachineDeployment. *)
Definition setBad : MachineSet := mkMachineSet "Bad" "7" "5" "1" [] (Some 3).
Definition deploymentD : MachineDeployment :=
  mkMachineDeployment "D" "9" "1" "5" (Some 3).
Definition groupD : nodegroup :=
  {| ng_resource := MachineDeploymentResource deploymentD;
     ng_minSize := 1; ng_maxSize := 5 |}.

(** A manager that holds snapshot 7, built at second 100. *)
Definition managerAt100 : clusterManager nat :=
  {| lastRefresh := 100 * Second; clusterSnapshotOf := Some 7%nat |}.

(** Owner references: a MachineSet reference without a name, then two
    usable ones; and a deployment reference without a name before a
    named one. *)
Definition mkRef (kind name uid : string) : OwnerReference :=
  {| ref_Kind := kind; ref_Name := name; ref_UID := uid |}.
Definition machineTwoOwners : Machine :=
  {| m_Namespace := "ns"; m_Name := "m";
     m_Labels := ∅;
     m_OwnerReferences :=
       [mkRef "MachineSet" "" "0"; mkRef "MachineSet" "A" "1"; mkRef "MachineSet" "B" "2"];
     m_ProviderID := None; m_NodeRef := None |}.
Definition setTwoDeployments : MachineSet :=
  mkMachineSet "A" "1" "1" "5"
    [mkRef "MachineSet" "X" "5"; mkRef "MachineDeployment" "" "8";
     mkRef "MachineDeployment" "D" "9"] (Some 3).

(** A quantity parser for two literals. *)
Definition parseTwo (val : string) : result Z :=
  if String.eqb val "2" then Ok 2
  else if String.eqb val "4Gi" then Ok 4294967296
  else Err (ExternalError "quantities must match the regular expression").
Definition capacityMixed : gmap string string :=
  <[nodeGroupInstanceCPUCapacity := "2"]>
    (<[nodeGroupInstanceMemoryCapacity := "lots"]>
       (<[nodeGroupInstancePodCapacity := "many"]> ∅)).
Definition capacityGood : gmap string string :=
  <[nodeGroupInstanceCPUCapacity := "2"]>
    (<[nodeGroupInstanceMemoryCapacity := "4Gi"]> ∅).

(** A cache whose machines carry no provider ID: node 1 is annotated
    with the key of machine a1. *)
Definition node1Annotated : Node :=
  {| node_Name := "node-1";
     node_Annotations := {[machineAnnotation := "ns/a1"]};
     node_ProviderID := "openstack:///1" |}.
Definition machineNoProviderID : Machine := mkMachine "a1" "A" "1" None None.
Definition clusterAnnotated : machineController :=
  cacheOf [node1Annotated] [machineNoProviderID] [setA] [] false.

(** A cache whose node store answers with an error. *)
Definition failingInformer : Informer :=
  {| GetByKey := fun _ => Err (ExternalError "store closed");
     ByIndex := fun _ _ => Err (ExternalError "store closed") |}.
Definition clusterNodeStoreDown : machineController :=
  {| machineDeploymentInformer := machineDeploymentInformer clusterMembers;
     machineInformer := machineInformer clusterMembers;
     machineSetInformer := machineSetInformer clusterMembers;
     nodeInformer := failingInformer;
     enableMachineDeployments := false |}.

(** A owned by deployment D with deployment grouping disabled; and A
    owned by D (uid 9) next to a stored deployment D with another unique
    id, with deployment grouping enabled. *)
Definition groupOwnedA : nodegroup :=
  {| ng_resource := MachineSetResource setOwnedByD; ng_minSize := 1; ng_maxSize := 5 |}.
Definition clusterOwnedDisabled : machineController :=
  cacheOf [node1] [machineA1] [setOwnedByD] [] false.
Definition deploymentRecreated : MachineDeployment :=
  mkMachineDeployment "D" "10" "1" "5" (Some 3).
Definition groupRecreated : nodegroup :=
  {| ng_resource := MachineDeploymentResource deploymentRecreated;
     ng_minSize := 1; ng_maxSize := 5 |}.
Definition clusterRecreated : machineController :=
  cacheOf [node1] [machineA1] [setOwnedByD] [deploymentRecreated] true.

(** A machine owned by the MachineSet with invalid bounds. *)
Definition machineBad1 : Machine :=
  mkMachine "bad1" "Bad" "7" (Some "aws:///i-7") None.
Definition node7 : Node := mkNode "node-7" "aws:///i-7".
Definition clusterBad : machineController :=
  cacheOf [node7] [machineBad1] [setBad] [] false.

(** A snapshot of two machine sets given by their (min, max) sizes, one
    of them with no room to scale, and the nodes of each. *)
Definition snapshotTwo : snapshotMaps (Z * Z) :=
  {| MachineSetMap := <["ns/A" := (1, 5)]> (<["ns/B" := (2, 2)]> ∅);
     NodeToMachineSetMap :=
       <["node-1" := "ns/A"]> (<["node-3" := "ns/B"]> (<["node-8" := "ns/gone"]> ∅)) |}.
Definition managerTwo : clusterManager (snapshotMaps (Z * Z)) :=
  {| lastRefresh := 100 * Second; clusterSnapshotOf := Some snapshotTwo |}.

(** * Situations the properties speak about *)

(** A machine with no confirmed owning MachineSet: its owner reference is
    absent, or dangling (the key is not in the MachineSet store), or
    names a stored MachineSet whose unique id is another one. *)
Inductive noConfirmedOwner (c : machineController) (machine : Machine) : Prop :=
| OwnerAbsent :
    machineOwnerRef machine = None ->
    noConfirmedOwner c machine
| OwnerDangling (ref : OwnerReference) :
    machineOwnerRef machine = Some ref ->
    GetByKey (machineSetInformer c)
             (storeKey (m_Namespace machine) (ref_Name ref)) = Ok None ->
    noConfirmedOwner c machine
| OwnerMismatched (ref : OwnerReference) (machineSet : MachineSet) :
    machineOwnerRef machine = Some ref ->
    GetByKey (machineSetInformer c)
             (storeKey (m_Namespace machine) (ref_Name ref))
      = Ok (Some (ObjMachineSet machineSet)) ->
    ref_UID ref <> ms_UID machineSet ->
    noConfirmedOwner c machine.

(** The replica count of the resource a group wraps, as the catalog reads
    it. *)
Definition replicasOf (ng : nodegroup) : Z :=
  match ng_resource ng with
  | MachineSetResource machineSet => Int32PtrDerefOr (ms_Replicas machineSet) 0
  | MachineDeploymentResource md => Int32PtrDerefOr (md_Replicas md) 0
  end.

(** A group that wraps a MachineSet owned by a MachineDeployment. *)
Definition wrapsOwnedMachineSet (ng : nodegroup) : bool :=
  match ng_resource ng with
  | MachineSetResource machineSet => machineSetHasMachineDeploymentOwnerRef machineSet
  | MachineDeploymentResource _ => false
  end.

(** The group a node resolves to, before the scale-size rule is applied:
    the one built from the machine's confirmed MachineSet, or from that
    MachineSet's MachineDeployment when deployment grouping is enabled
    and the MachineSet carries a deployment reference. *)
Inductive resolvesTo (mak : string) (c : machineController) (node : Node)
  (ng : nodegroup) : Prop :=
| ResolvesToMachineSet (machine : Machine) (machineSet : MachineSet) :
    findMachineByProviderID mak c (node_ProviderID node) = Ok (Some machine) ->
    findMachineOwner c machine = Ok (Some machineSet) ->
    enableMachineDeployments c = false \/
      machineSetMachineDeploymentRef machineSet = None ->
    newNodegroupFromMachineSet c machineSet = Ok ng ->
    resolvesTo mak c node ng
| ResolvesToMachineDeployment (machine : Machine) (machineSet : MachineSet)
    (ref : OwnerReference) (md : MachineDeployment) :
    findMachineByProviderID mak c (node_ProviderID node) = Ok (Some machine) ->
    findMachineOwner c machine = Ok (Some machineSet) ->
    enableMachineDeployments c = true ->
    machineSetMachineDeploymentRef machineSet = Some ref ->
    findMachineDeployment c (storeKey (ms_Namespace machineSet) (ref_Name ref))
      = Ok (Some md) ->
    newNodegroupFromMachineDeployment c md = Ok ng ->
    resolvesTo mak c node ng.

(** What the catalog guarantees of each group it yields. *)
Definition eligible (ng : nodegroup) : Prop :=
  wrapsOwnedMachineSet ng = false /\
  0 < MaxSize ng - MinSize ng /\
  0 < replicasOf ng.

(** What the bounds parser reads under a key: 0 when the key is absent,
    else the integer its value converts to. *)
Definition boundReads (a : gmap string string) (key : string) (i : Z) : Prop :=
  (a !! key = None /\ i = 0) \/
  (exists val, a !! key = Some val /\ Atoi val = Ok i).

(** An owner reference that [machineOwnerRef] accepts. *)
Definition namesMachineSet (ref : OwnerReference) : Prop :=
  ref_Kind ref = "MachineSet" /\ ref_Name ref <> "".

(** An owner reference that [machineSetMachineDeploymentRef] accepts. *)
Definition namesMachineDeployment (ref : OwnerReference) : Prop :=
  ref_Kind ref = "MachineDeployment".

(** * Properties *)

(** ** Integers read from annotations *)

Lemma digitValue_nonneg (c : ascii) : isDigit c = true -> 0 <= digitValue c <= 9.
Proof.
  unfold isDigit, digitValue. intros H.
  apply andb_true_iff in H as [H1 H2].
  apply Z.leb_le in H1, H2. lia.
Qed.

Lemma parseDigits_nonneg (s : string) :
  forall n un, 0 <= n -> parseDigits n s = inr un -> 0 <= un.
Proof.
  induction s as [|c rest IH]; simpl; intros n un Hn H.
  - congruence.
  - destruct (isDigit c) eqn:Hc; [|discriminate].
    destruct (maxUint64 <? n * 10 + digitValue c); [discriminate|].
    apply (IH (n * 10 + digitValue c)); [|exact H].
    pose proof (digitValue_nonneg c Hc). lia.
Qed.

Lemma Atoi_range (s : string) (i : Z) : Atoi s = Ok i -> minInt <= i <= maxInt.
Proof.
  unfold Atoi, minInt, maxInt.
  change (2 ^ (intSize - 1)) with 9223372036854775808.
  destruct s as [|c rest]; [discriminate|].
  set (body := if isSign c then rest else String c rest).
  destruct body as [|c' rest']; [discriminate|].
  destruct (parseDigits 0 (String c' rest')) as [k|un] eqn:Hd; [discriminate|].
  assert (0 <= un) by (eapply parseDigits_nonneg; [|exact Hd]; lia).
  destruct (Ascii.eqb c "-").
  - destruct (Z.ltb_spec 9223372036854775808 un); [discriminate|].
    intros [= <-]. lia.
  - destruct (Z.leb_spec 9223372036854775808 un); [discriminate|].
    intros [= <-]. lia.
Qed.

Lemma minSize_range (a : gmap string string) (i : Z) (err : option error) :
  minSize a = (i, err) -> minInt <= i <= maxInt.
Proof.
  unfold minSize.
  destruct (a !! nodeGroupMinSizeAnnotationKey) as [val|].
  - destruct (Atoi val) eqn:Hv; intros [= <- <-].
    + eauto using Atoi_range.
    + unfold minInt, maxInt, intSize. simpl. lia.
  - intros [= <- <-]. unfold minInt, maxInt, intSize. simpl. lia.
Qed.

Lemma maxSize_range (a : gmap string string) (i : Z) (err : option error) :
  maxSize a = (i, err) -> minInt <= i <= maxInt.
Proof.
  unfold maxSize.
  destruct (a !! nodeGroupMaxSizeAnnotationKey) as [val|].
  - destruct (Atoi val) eqn:Hv; intros [= <- <-].
    + eauto using Atoi_range.
    + unfold minInt, maxInt, intSize. simpl. lia.
  - intros [= <- <-]. unfold minInt, maxInt, intSize. simpl. lia.
Qed.

(** Bounds that parse are well formed and fit an [int]. *)
Lemma parseScalingBounds_range (a : gmap string string) (mn mx : Z) :
  parseScalingBounds a = (mn, mx, None) -> 0 <= mn <= mx /\ mx <= maxInt.
Proof.
  unfold parseScalingBounds.
  destruct (minSize a) as [i erri] eqn:Hmin.
  destruct (fatalUnless isMissingMin erri); [discriminate|].
  destruct (Z.ltb_spec i 0); [discriminate|].
  destruct (maxSize a) as [j errj] eqn:Hmax.
  destruct (fatalUnless isMissingMax errj); [discriminate|].
  destruct (Z.ltb_spec j 0); [discriminate|].
  destruct (Z.ltb_spec j i); [discriminate|].
  intros [= <- <-].
  apply maxSize_range in Hmax. lia.
Qed.

Lemma wrapInt_id (z : Z) : minInt <= z <= maxInt -> wrapInt z = z.
Proof.
  unfold wrapInt, minInt, maxInt, intSize. simpl Z.sub. intros H.
  rewrite Z.mod_small; lia.
Qed.

Lemma int_sub_bounds (a : gmap string string) (mn mx : Z) :
  parseScalingBounds a = (mn, mx, None) -> int_sub mx mn = mx - mn.
Proof.
  intros H. apply parseScalingBounds_range in H.
  unfold int_sub. apply wrapInt_id.
  unfold minInt, maxInt, intSize in *. simpl in *. lia.
Qed.

(** ** Scaling bounds *)

(** C8: the metadata min=1, max=5 gives the bounds (1, 5); min=5, max=1
    fails with an invalid-bound error (the maximum is below the minimum);
    min=-1, max=5 fails with an invalid-bound error (negative bound). *)
Theorem C8_scaling_bounds_examples :
  parseScalingBounds (boundsOf "1" "5") = (1, 5, None) /\
  (parseScalingBounds (boundsOf "5" "1") = (0, 0, Some errInvalidMaxAnnotation) /\
   boundErrorKind errInvalidMaxAnnotation = Some InvalidBoundValue) /\
  (parseScalingBounds (boundsOf "-1" "5") = (0, 0, Some errInvalidMinAnnotation) /\
   boundErrorKind errInvalidMinAnnotation = Some InvalidBoundValue).
Proof. repeat split; vm_compute; reflexivity. Qed.

Lemma parseScalingBounds_no_max (a : gmap string string) :
  a !! nodeGroupMaxSizeAnnotationKey = None ->
  parseScalingBounds a =
    let '(i, err) := minSize a in
    match fatalUnless isMissingMin err with
    | Some err => (0, 0, Some err)
    | None =>
        if i <? 0 then (0, 0, Some errInvalidMinAnnotation)
        else if 0 <? i then (0, 0, Some errInvalidMaxAnnotation)
        else (i, 0, None)
    end.
Proof.
  intros Hmax. unfold parseScalingBounds, maxSize. rewrite Hmax.
  destruct (minSize a) as [i err]. destruct (fatalUnless isMissingMin err); [reflexivity|].
  destruct (Z.ltb_spec i 0); [reflexivity|]. simpl.
  reflexivity.
Qed.

(** C3, as the code has it: for every metadata mapping with no max-size
    key the missing maximum is read as 0 and never reported as a missing
    bound.  The result is (0, 0) when the minimum is absent or is 0; it
    is an invalid-bound failure when the minimum is positive (invalid
    maximum), negative (invalid minimum) or not an integer (the wrapped
    conversion error). *)
Theorem C3_missing_max_reads_as_zero (a : gmap string string) :
  a !! nodeGroupMaxSizeAnnotationKey = None ->
  (forall mn mx e, parseScalingBounds a = (mn, mx, Some e) ->
     boundErrorKind e = Some InvalidBoundValue) /\
  (a !! nodeGroupMinSizeAnnotationKey = None ->
     parseScalingBounds a = (0, 0, None)) /\
  (forall val i, a !! nodeGroupMinSizeAnnotationKey = Some val -> Atoi val = Ok i ->
     parseScalingBounds a =
       if i <? 0 then (0, 0, Some errInvalidMinAnnotation)
       else if 0 <? i then (0, 0, Some errInvalidMaxAnnotation)
       else (0, 0, None)) /\
  (forall val err, a !! nodeGroupMinSizeAnnotationKey = Some val -> Atoi val = Err err ->
     parseScalingBounds a = (0, 0, Some (Wrapf err errInvalidMinAnnotation))).
Proof.
  intros Hmax. pose proof (parseScalingBounds_no_max a Hmax) as E.
  unfold minSize in E. repeat split.
  - intros mn mx e. rewrite E.
    destruct (a !! nodeGroupMinSizeAnnotationKey) as [val|]; simpl.
    + destruct (Atoi val) as [i|err]; simpl.
      * destruct (i <? 0); [intros [= <- <- <-]; reflexivity|].
        destruct (0 <? i); [intros [= <- <- <-]; reflexivity|discriminate].
      * intros [= <- <- <-]. reflexivity.
    + discriminate.
  - intros Hmin. rewrite E, Hmin. reflexivity.
  - intros val i Hmin Hval. rewrite E, Hmin, Hval. simpl.
    destruct (Z.ltb_spec i 0); [reflexivity|].
    destruct (Z.ltb_spec 0 i); [reflexivity|].
    replace i with 0 by lia. reflexivity.
  - intros val err Hmin Hval. rewrite E, Hmin, Hval. reflexivity.
Qed.

Lemma C3_missing_max_reads_as_zero_witness :
  parseScalingBounds (onlyMin "3") = (0, 0, Some errInvalidMaxAnnotation) /\
  parseScalingBounds (onlyMin "0") = (0, 0, None).
Proof.
  split.
  - exact (proj1 (proj2 (proj2 (C3_missing_max_reads_as_zero (onlyMin "3") eq_refl)))
             "3"%string 3 eq_refl eq_refl).
  - exact (proj1 (proj2 (proj2 (C3_missing_max_reads_as_zero (onlyMin "0") eq_refl)))
             "0"%string 0 eq_refl eq_refl).
Defined.

(** C3 as stated fails: the empty mapping has no max-size key, and the
    bounds parser succeeds on it with (0, 0) instead of failing with a
    missing-bound error. *)
Lemma C3_counterexample :
  (∅ : gmap string string) !! nodeGroupMaxSizeAnnotationKey = None /\
  parseScalingBounds ∅ = (0, 0, None) /\
  ~ (exists mn mx e, parseScalingBounds ∅ = (mn, mx, Some e) /\
                     boundErrorKind e = Some MissingBound).
Proof.
  split; [reflexivity|]. split; [vm_compute; reflexivity|].
  intros (mn & mx & e & H & _). vm_compute in H. discriminate.
Qed.

(** ** Capacity hints *)

Lemma parseCapacity_empty {Quantity : Type} (PQ : string -> result Quantity)
  (key : string) (a : gmap string string) :
  a !! key = Some "" ->
  parseCapacity PQ key a = Ok None /\
  parseCapacity PQ key (delete key a) = Ok None.
Proof.
  intros H. unfold parseCapacity. rewrite H, lookup_delete_eq. split; reflexivity.
Qed.

Lemma parseCapacity_delete_other {Quantity : Type} (PQ : string -> result Quantity)
  (key key' : string) (a : gmap string string) :
  key <> key' ->
  parseCapacity PQ key' (delete key a) = parseCapacity PQ key' a.
Proof.
  intros H. unfold parseCapacity. rewrite lookup_delete_ne by exact H. reflexivity.
Qed.

Lemma parseCapacityValues_empty {Quantity : Type} (PQ : string -> result Quantity)
  (key : string) (a : gmap string string) :
  a !! key = Some "" ->
  parseCapacityValues PQ a = parseCapacityValues PQ (delete key a).
Proof.
  intros H. unfold parseCapacityValues, parseMemoryCapacity, parseCPUCapacity,
    parsePodCapacity.
  assert (forall key', parseCapacity PQ key' (delete key a) = parseCapacity PQ key' a)
    as E.
  { intros key'. destruct (decide (key = key')) as [<-|Hne].
    - destruct (parseCapacity_empty PQ key a H) as [-> ->]. reflexivity.
    - apply parseCapacity_delete_other, Hne. }
  rewrite !E. reflexivity.
Qed.

(** C10: a capacity key (cpu, memory or pods) bound to the empty string
    is treated exactly like an absent key, whatever the quantity parser
    does on the empty string: the parser of that dimension yields no hint
    and no error, as it does once the key is removed, and the three hints
    together are those of the mapping without the key. *)
Theorem C10_empty_capacity_is_absent {Quantity : Type}
  (PQ : string -> result Quantity) (a : gmap string string) :
  (a !! nodeGroupInstanceCPUCapacity = Some "" ->
     parseCPUCapacity PQ a = Ok None /\
     parseCPUCapacity PQ (delete nodeGroupInstanceCPUCapacity a) = Ok None /\
     parseCapacityValues PQ a =
       parseCapacityValues PQ (delete nodeGroupInstanceCPUCapacity a)) /\
  (a !! nodeGroupInstanceMemoryCapacity = Some "" ->
     parseMemoryCapacity PQ a = Ok None /\
     parseMemoryCapacity PQ (delete nodeGroupInstanceMemoryCapacity a) = Ok None /\
     parseCapacityValues PQ a =
       parseCapacityValues PQ (delete nodeGroupInstanceMemoryCapacity a)) /\
  (a !! nodeGroupInstancePodCapacity = Some "" ->
     parsePodCapacity PQ a = Ok None /\
     parsePodCapacity PQ (delete nodeGroupInstancePodCapacity a) = Ok None /\
     parseCapacityValues PQ a =
       parseCapacityValues PQ (delete nodeGroupInstancePodCapacity a)).
Proof.
  repeat split;
    try (apply parseCapacity_empty; assumption);
    apply parseCapacityValues_empty; assumption.
Qed.

Lemma C10_empty_capacity_is_absent_witness :
  rejectAll "" = Err (ExternalError "quantities must match the regular expression") /\
  parseCPUCapacity rejectAll emptyCapacities = Ok None /\
  parseMemoryCapacity rejectAll emptyCapacities = Ok None /\
  parsePodCapacity rejectAll emptyCapacities = Ok None.
Proof.
  destruct (C10_empty_capacity_is_absent rejectAll emptyCapacities) as (Hc & Hm & Hp).
  split; [reflexivity|].
  split; [exact (proj1 (Hc eq_refl))|].
  split; [exact (proj1 (Hm eq_refl))|exact (proj1 (Hp eq_refl))].
Defined.

(** ** Ownership *)

Lemma machineIsOwnedByMachineSet_uid (machine : Machine) (machineSet : MachineSet) :
  machineIsOwnedByMachineSet machine machineSet = true <->
  exists ref, machineOwnerRef machine = Some ref /\ ref_UID ref = ms_UID machineSet.
Proof.
  unfold machineIsOwnedByMachineSet. split.
  - destruct (machineOwnerRef machine) as [ref|]; [|discriminate].
    intros H. exists ref. split; [reflexivity|]. apply String.eqb_eq, H.
  - intros (ref & -> & H). apply String.eqb_eq, H.
Qed.

Lemma findMachineOwner_Some (c : machineController) (machine : Machine)
  (machineSet : MachineSet) :
  findMachineOwner c machine = Ok (Some machineSet) ->
  exists ref,
    machineOwnerRef machine = Some ref /\
    GetByKey (machineSetInformer c)
             (storeKey (m_Namespace machine) (ref_Name ref))
      = Ok (Some (ObjMachineSet machineSet)) /\
    machineIsOwnedByMachineSet machine machineSet = true.
Proof.
  unfold findMachineOwner.
  destruct (machineOwnerRef machine) as [ref|] eqn:Href; [|discriminate].
  destruct (GetByKey _ _) as [[[n|m|s|d]|]|err] eqn:Hget; try discriminate.
  destruct (machineIsOwnedByMachineSet machine s) eqn:Hown; [|discriminate].
  intros [= <-]. exists ref. auto.
Qed.

Lemma findMachineOwner_unconfirmed (c : machineController) (machine : Machine) :
  noConfirmedOwner c machine -> findMachineOwner c machine = Ok None.
Proof.
  unfold findMachineOwner.
  intros [Href | ref Href Hget | ref machineSet Href Hget Huid]; rewrite Href.
  - reflexivity.
  - rewrite Hget. reflexivity.
  - rewrite Hget. unfold machineIsOwnedByMachineSet. rewrite Href.
    destruct (String.eqb_spec (ref_UID ref) (ms_UID machineSet)); [contradiction|].
    reflexivity.
Qed.

(** C1: the owner lookup of a machine returns none or a MachineSet that
    is confirmed by identity: the machine has a MachineSet owner
    reference whose unique id equals the MachineSet's.  A MachineSet
    with another unique id is never returned; when the reference names a
    stored MachineSet whose unique id differs, the lookup returns none
    although the names match. *)
Theorem C1_findMachineOwner_confirms_identity (c : machineController)
  (machine : Machine) :
  (forall machineSet,
     findMachineOwner c machine = Ok (Some machineSet) ->
     machineIsOwnedByMachineSet machine machineSet = true /\
     exists ref, machineOwnerRef machine = Some ref /\
                 ref_UID ref = ms_UID machineSet) /\
  (forall ref machineSet,
     machineOwnerRef machine = Some ref ->
     ref_UID ref <> ms_UID machineSet ->
     findMachineOwner c machine <> Ok (Some machineSet)) /\
  (forall ref machineSet,
     machineOwnerRef machine = Some ref ->
     ref_Name ref = ms_Name machineSet ->
     GetByKey (machineSetInformer c)
              (storeKey (m_Namespace machine) (ms_Name machineSet))
       = Ok (Some (ObjMachineSet machineSet)) ->
     ref_UID ref <> ms_UID machineSet ->
     findMachineOwner c machine = Ok None).
Proof.
  assert (forall machineSet,
     findMachineOwner c machine = Ok (Some machineSet) ->
     machineIsOwnedByMachineSet machine machineSet = true /\
     exists ref, machineOwnerRef machine = Some ref /\
                 ref_UID ref = ms_UID machineSet) as Hsome.
  { intros machineSet H. apply findMachineOwner_Some in H as (ref & Href & _ & Hown).
    split; [exact Hown|]. apply machineIsOwnedByMachineSet_uid, Hown. }
  split; [exact Hsome|]. split.
  - intros ref machineSet Href Huid H.
    apply Hsome in H as (_ & ref' & Href' & Huid'). congruence.
  - intros ref machineSet Href Hname Hget Huid.
    apply findMachineOwner_unconfirmed.
    apply (OwnerMismatched c machine ref machineSet Href); [|exact Huid].
    rewrite Hname. exact Hget.
Qed.

Lemma C1_findMachineOwner_confirms_identity_witness :
  findMachineOwner clusterA machineA1 = Ok (Some setA) /\
  machineIsOwnedByMachineSet machineA1 setA = true /\
  ref_Name <$> machineOwnerRef staleMachine = Some (ms_Name setA) /\
  findMachineOwner clusterA staleMachine = Ok None.
Proof.
  split; [reflexivity|]. split; [|split; [reflexivity|]].
  - exact (proj1 (proj1 (C1_findMachineOwner_confirms_identity clusterA machineA1)
                    setA eq_refl)).
  - refine (proj2 (proj2 (C1_findMachineOwner_confirms_identity clusterA staleMachine))
              _ setA eq_refl eq_refl eq_refl _).
    discriminate.
Defined.

(** ** Provider-ID lookups *)

(** C5: a provider-ID lookup returns at most one object (its result is a
    single optional Node or Machine), and when the index holds more than
    one entry for the key both lookups fail with the internal error
    instead of picking an entry. *)
Theorem C5_duplicate_index_entries_fail (mak : string) (c : machineController)
  (providerID : string) (objs : list Obj) :
  (ByIndex (nodeInformer c) nodeProviderIDIndex providerID = Ok objs ->
   (1 < length objs)%nat ->
   findNodeByProviderID c providerID = Err (InternalExpectedLen1 (length objs))) /\
  (ByIndex (machineInformer c) machineProviderIDIndex providerID = Ok objs ->
   (1 < length objs)%nat ->
   findMachineByProviderID mak c providerID = Err (InternalExpectedLen1 (length objs))).
Proof.
  split; intros Hidx Hlen.
  - unfold findNodeByProviderID. rewrite Hidx.
    destruct objs as [|o1 [|o2 rest]]; simpl in Hlen; try lia. reflexivity.
  - unfold findMachineByProviderID. rewrite Hidx.
    destruct objs as [|o1 [|o2 rest]]; simpl in Hlen; try lia. reflexivity.
Qed.

Lemma C5_duplicate_index_entries_fail_witness :
  findNodeByProviderID clusterDuplicates "aws:///i-1" = Err (InternalExpectedLen1 2) /\
  findMachineByProviderID machineAnnotation clusterDuplicates "aws:///i-1"
    = Err (InternalExpectedLen1 2).
Proof.
  split.
  - refine (proj1 (C5_duplicate_index_entries_fail machineAnnotation clusterDuplicates
                     "aws:///i-1" _) eq_refl _).
    simpl. lia.
  - refine (proj2 (C5_duplicate_index_entries_fail machineAnnotation clusterDuplicates
                     "aws:///i-1" _) eq_refl _).
    simpl. lia.
Defined.

(** ** Resolving a node to its group *)

(** C2: a node whose provider ID resolves to no Machine (in particular
    one with no entry in either provider-ID index), and a node whose
    Machine has no confirmed owning MachineSet (owner reference absent,
    dangling or with another unique id), has no group and no error; with
    deployment grouping enabled, a confirmed MachineSet whose
    MachineDeployment reference is not in the cache is an error. *)
Theorem C2_absence_is_none_dangling_deployment_is_error (mak : string)
  (c : machineController) (node : Node) :
  (findMachineByProviderID mak c (node_ProviderID node) = Ok None ->
   nodeGroupForNode mak c node = Ok None) /\
  (ByIndex (machineInformer c) machineProviderIDIndex (node_ProviderID node) = Ok [] ->
   ByIndex (nodeInformer c) nodeProviderIDIndex (node_ProviderID node) = Ok [] ->
   nodeGroupForNode mak c node = Ok None) /\
  (forall machine,
     findMachineByProviderID mak c (node_ProviderID node) = Ok (Some machine) ->
     noConfirmedOwner c machine ->
     nodeGroupForNode mak c node = Ok None) /\
  (forall machine machineSet ref,
     enableMachineDeployments c = true ->
     findMachineByProviderID mak c (node_ProviderID node) = Ok (Some machine) ->
     findMachineOwner c machine = Ok (Some machineSet) ->
     machineSetMachineDeploymentRef machineSet = Some ref ->
     GetByKey (machineDeploymentInformer c)
              (storeKey (ms_Namespace machineSet) (ref_Name ref)) = Ok None ->
     nodeGroupForNode mak c node
       = Err (UnknownMachineDeployment
                (storeKey (ms_Namespace machineSet) (ref_Name ref)))).
Proof.
  assert (findMachineByProviderID mak c (node_ProviderID node) = Ok None ->
          nodeGroupForNode mak c node = Ok None) as Hnone.
  { intros H. unfold nodeGroupForNode. rewrite H. reflexivity. }
  split; [exact Hnone|]. split; [|split].
  - intros Hm Hn. apply Hnone.
    unfold findMachineByProviderID, findNodeByProviderID. rewrite Hm, Hn. reflexivity.
  - intros machine Hm Hown. unfold nodeGroupForNode.
    rewrite Hm, (findMachineOwner_unconfirmed c machine Hown). reflexivity.
  - intros machine machineSet ref Hen Hm Hown Href Hget.
    unfold nodeGroupForNode, findMachineDeployment.
    rewrite Hm, Hown, Hen, Href, Hget. reflexivity.
Qed.

Lemma C2_absence_is_none_dangling_deployment_is_error_witness :
  nodeGroupForNode machineAnnotation clusterA (mkNode "node-9" "aws:///i-9") = Ok None /\
  nodeGroupForNode machineAnnotation clusterA node2 = Ok None /\
  nodeGroupForNode machineAnnotation clusterDangling node1
    = Err (UnknownMachineDeployment "ns/D").
Proof.
  split; [|split].
  - exact (proj1 (C2_absence_is_none_dangling_deployment_is_error
                    machineAnnotation clusterA (mkNode "node-9" "aws:///i-9")) eq_refl).
  - refine (proj1 (proj2 (proj2 (C2_absence_is_none_dangling_deployment_is_error
                    machineAnnotation clusterA node2))) staleMachine eq_refl _).
    refine (OwnerMismatched clusterA staleMachine _ setA eq_refl eq_refl _).
    discriminate.
  - exact (proj2 (proj2 (proj2 (C2_absence_is_none_dangling_deployment_is_error
                    machineAnnotation clusterDangling node1)))
             machineA1 setOwnedByD refD eq_refl eq_refl eq_refl eq_refl eq_refl).
Defined.

(** ** Eligibility *)

Lemma newNodegroup_Ok (resource : scalableResource) (a : gmap string string)
  (ng : nodegroup) :
  newNodegroup resource a = Ok ng ->
  ng_resource ng = resource /\
  parseScalingBounds a = (MinSize ng, MaxSize ng, None).
Proof.
  unfold newNodegroup.
  destruct (parseScalingBounds a) as [[mn mx] [err|]]; [discriminate|].
  intros [= <-]. split; reflexivity.
Qed.

(** The subtraction the code performs on a built group does not wrap. *)
Lemma newNodegroup_int_sub (resource : scalableResource) (a : gmap string string)
  (ng : nodegroup) :
  newNodegroup resource a = Ok ng ->
  int_sub (MaxSize ng) (MinSize ng) = MaxSize ng - MinSize ng.
Proof.
  intros H. apply newNodegroup_Ok in H as [_ H]. eapply int_sub_bounds, H.
Qed.

Lemma canScale_true (resource : scalableResource) (a : gmap string string)
  (ng : nodegroup) (replicas : option Z) :
  newNodegroup resource a = Ok ng ->
  canScale ng replicas = true ->
  0 < MaxSize ng - MinSize ng /\ 0 < Int32PtrDerefOr replicas 0.
Proof.
  intros Hng H. unfold canScale in H.
  rewrite (newNodegroup_int_sub _ _ _ Hng) in H.
  apply andb_true_iff in H as [H1 H2]. apply Z.ltb_lt in H1, H2. auto.
Qed.

Lemma machineSetNodeGroups_func_eligible (c : machineController)
  (machineSet : MachineSet) (nodegroups nodegroups' : list nodegroup) :
  Forall eligible nodegroups ->
  machineSetNodeGroups_func c machineSet nodegroups = (nodegroups', None) ->
  Forall eligible nodegroups'.
Proof.
  intros Hacc. unfold machineSetNodeGroups_func.
  destruct (machineSetHasMachineDeploymentOwnerRef machineSet) eqn:Hown.
  { intros [= <-]. exact Hacc. }
  unfold newNodegroupFromMachineSet.
  destruct (newNodegroup _ _) as [ng|err] eqn:Hng; [|discriminate].
  destruct (canScale ng (ms_Replicas machineSet)) eqn:Hscale.
  - intros [= <-]. apply Forall_app. split; [exact Hacc|].
    constructor; [|constructor].
    destruct (canScale_true _ _ _ _ Hng Hscale) as [Hrange Hrep].
    apply newNodegroup_Ok in Hng as [Hres _].
    unfold eligible, wrapsOwnedMachineSet, replicasOf. rewrite Hres. auto.
  - intros [= <-]. exact Hacc.
Qed.

Lemma filterMachineSets_loop_eligible (c : machineController)
  (machineSets : list MachineSet) :
  forall nodegroups nodegroups',
    Forall eligible nodegroups ->
    filterMachineSets_loop (machineSetNodeGroups_func c) machineSets nodegroups
      = (nodegroups', None) ->
    Forall eligible nodegroups'.
Proof.
  induction machineSets as [|machineSet rest IH]; simpl; intros acc acc' Hacc.
  - intros [= <-]. exact Hacc.
  - destruct (machineSetNodeGroups_func c machineSet acc) as [st' [err|]] eqn:Hf;
      [discriminate|].
    intros H. eapply IH; [|exact H].
    eapply machineSetNodeGroups_func_eligible; eassumption.
Qed.

Lemma machineSetNodeGroups_eligible (c : machineController)
  (groups : list nodegroup) :
  machineSetNodeGroups c = Ok groups -> Forall eligible groups.
Proof.
  unfold machineSetNodeGroups, filterAllMachineSets, filterMachineSets.
  destruct (listMachineSets c) as [machineSets|err].
  - destruct (filterMachineSets_loop _ machineSets []) as [st [err|]] eqn:Hloop;
      [discriminate|].
    intros [= <-]. eapply filterMachineSets_loop_eligible; [|exact Hloop].
    constructor.
  - intros [= <-]. constructor.
Qed.

Lemma machineDeploymentNodeGroups_loop_eligible (c : machineController)
  (machineDeployments : list MachineDeployment) :
  forall nodegroups groups,
    Forall eligible nodegroups ->
    machineDeploymentNodeGroups_loop c machineDeployments nodegroups = Ok groups ->
    Forall eligible groups.
Proof.
  induction machineDeployments as [|md rest IH]; simpl; intros acc groups Hacc.
  - intros [= <-]. exact Hacc.
  - unfold newNodegroupFromMachineDeployment.
    destruct (newNodegroup _ _) as [ng|err] eqn:Hng; [|discriminate].
    destruct (canScale ng (md_Replicas md)) eqn:Hscale.
    + apply IH. apply Forall_app. split; [exact Hacc|].
      constructor; [|constructor].
      destruct (canScale_true _ _ _ _ Hng Hscale) as [Hrange Hrep].
      apply newNodegroup_Ok in Hng as [Hres _].
      unfold eligible, wrapsOwnedMachineSet, replicasOf. rewrite Hres. auto.
    + apply IH, Hacc.
Qed.

Lemma machineDeploymentNodeGroups_eligible (c : machineController)
  (groups : list nodegroup) :
  machineDeploymentNodeGroups c = Ok groups -> Forall eligible groups.
Proof.
  unfold machineDeploymentNodeGroups.
  destruct (enableMachineDeployments c); cbn [negb].
  - destruct (listMachineDeployments c) as [mds|err]; [|discriminate].
    apply machineDeploymentNodeGroups_loop_eligible. constructor.
  - intros [= <-]. constructor.
Qed.

Lemma atLeastOne_resolved (nodeName : string) (resource : scalableResource)
  (a : gmap string string) (ng : nodegroup) :
  newNodegroup resource a = Ok ng ->
  atLeastOne nodeName (newNodegroup resource a)
    = if MaxSize ng - MinSize ng <? 1 then Ok None else Ok (Some ng).
Proof.
  intros H. unfold atLeastOne. rewrite H, (newNodegroup_int_sub _ _ _ H). reflexivity.
Qed.

Lemma nodeGroupForNode_resolved (mak : string) (c : machineController)
  (node : Node) (ng : nodegroup) :
  resolvesTo mak c node ng ->
  nodeGroupForNode mak c node
    = if MaxSize ng - MinSize ng <? 1 then Ok None else Ok (Some ng).
Proof.
  intros [machine machineSet Hm Hown Hms Hng
         | machine machineSet ref md Hm Hown Hen Href Hmd Hng];
    unfold nodeGroupForNode; rewrite Hm, Hown.
  - unfold newNodegroupFromMachineSet in *.
    rewrite (atLeastOne_resolved _ _ _ _ Hng).
    destruct Hms as [-> | ->]; [reflexivity|].
    destruct (enableMachineDeployments c); reflexivity.
  - unfold newNodegroupFromMachineDeployment in *.
    rewrite Hen, Href, Hmd. apply atLeastOne_resolved, Hng.
Qed.

Lemma atLeastOne_Some (nodeName : string) (resource : scalableResource)
  (a : gmap string string) (ng : nodegroup) :
  atLeastOne nodeName (newNodegroup resource a) = Ok (Some ng) ->
  1 <= MaxSize ng - MinSize ng.
Proof.
  destruct (newNodegroup resource a) as [ng'|err] eqn:Hng; [|discriminate].
  rewrite <- Hng, (atLeastOne_resolved _ _ _ _ Hng).
  destruct (Z.ltb_spec (MaxSize ng' - MinSize ng') 1); [discriminate|].
  intros [= <-]. assumption.
Qed.

Lemma nodeGroupForNode_Some (mak : string) (c : machineController)
  (node : Node) (ng : nodegroup) :
  nodeGroupForNode mak c node = Ok (Some ng) -> 1 <= MaxSize ng - MinSize ng.
Proof.
  unfold nodeGroupForNode.
  destruct (findMachineByProviderID _ _ _) as [[machine|]|]; try discriminate.
  destruct (findMachineOwner c machine) as [[machineSet|]|]; try discriminate.
  unfold newNodegroupFromMachineSet, newNodegroupFromMachineDeployment.
  destruct (enableMachineDeployments c);
    [destruct (machineSetMachineDeploymentRef machineSet) as [ref|];
     [destruct (findMachineDeployment c _) as [[md|]|]; try discriminate|]|];
    apply atLeastOne_Some.
Qed.

(** C6: every group the catalog yields is eligible: it does not wrap a
    MachineSet that has a MachineDeployment owner reference, its
    max - min is positive and its replica count is positive.  This holds
    of the catalog and of each of its two enumeration loops, over every
    list of MachineSets or MachineDeployments.  And a node whose resolved
    group has max - min < 1 has no group, so that every group returned
    for a node has max - min >= 1. *)
Theorem C6_eligibility_filtering (mak : string) (c : machineController) :
  (forall groups, nodeGroups c = Ok groups -> Forall eligible groups) /\
  (forall machineSets nodegroups groups,
     Forall eligible nodegroups ->
     filterMachineSets_loop (machineSetNodeGroups_func c) machineSets nodegroups
       = (groups, None) ->
     Forall eligible groups) /\
  (forall mds nodegroups groups,
     Forall eligible nodegroups ->
     machineDeploymentNodeGroups_loop c mds nodegroups = Ok groups ->
     Forall eligible groups) /\
  (forall node ng,
     resolvesTo mak c node ng -> MaxSize ng - MinSize ng < 1 ->
     nodeGroupForNode mak c node = Ok None) /\
  (forall node ng,
     nodeGroupForNode mak c node = Ok (Some ng) -> 1 <= MaxSize ng - MinSize ng).
Proof.
  split; [|split; [|split; [|split]]].
  - intros groups. unfold nodeGroups.
    destruct (machineSetNodeGroups c) as [l1|] eqn:H1; [|discriminate].
    destruct (machineDeploymentNodeGroups c) as [l2|] eqn:H2; [|discriminate].
    intros [= <-]. apply Forall_app.
    split;
      [apply (machineSetNodeGroups_eligible c) | apply (machineDeploymentNodeGroups_eligible c)];
      assumption.
  - intros machineSets nodegroups groups Hacc H.
    exact (filterMachineSets_loop_eligible c machineSets nodegroups groups Hacc H).
  - intros mds nodegroups groups Hacc H.
    exact (machineDeploymentNodeGroups_loop_eligible c mds nodegroups groups Hacc H).
  - intros node ng Hres Hlt. rewrite (nodeGroupForNode_resolved _ _ _ _ Hres).
    destruct (Z.ltb_spec (MaxSize ng - MinSize ng) 1); [reflexivity|lia].
  - intros node ng. apply nodeGroupForNode_Some.
Qed.

Lemma C6_eligibility_filtering_witness :
  filterMachineSets_loop (machineSetNodeGroups_func clusterAB)
    [setA; setB; setOwnedByD] [] = ([groupA], None) /\
  machineDeploymentNodeGroups_loop clusterAB
    [deploymentD; mkMachineDeployment "E" "11" "1" "5" None] [] = Ok [groupD] /\
  Forall eligible [groupA] /\
  Forall eligible [groupD] /\
  nodeGroupForNode machineAnnotation clusterAB node3 = Ok None /\
  nodeGroupForNode machineAnnotation clusterAB node1 = Ok (Some groupA) /\
  1 <= MaxSize groupA - MinSize groupA.
Proof.
  destruct (C6_eligibility_filtering machineAnnotation clusterAB)
    as (_ & Hsets & Hdeps & Hzero & Hone).
  split; [vm_compute; reflexivity|].
  split; [vm_compute; reflexivity|].
  split.
  { apply (Hsets [setA; setB; setOwnedByD] []); [constructor|vm_compute; reflexivity]. }
  split.
  { apply (Hdeps [deploymentD; mkMachineDeployment "E" "11" "1" "5" None] []);
      [constructor|vm_compute; reflexivity]. }
  split.
  - apply (Hzero node3 groupB); [|vm_compute; reflexivity].
    apply (ResolvesToMachineSet _ _ _ _ machineB1 setB);
      [vm_compute; reflexivity | vm_compute; reflexivity | left; reflexivity
      | vm_compute; reflexivity].
  - split; [vm_compute; reflexivity|].
    apply (Hone node1). vm_compute. reflexivity.
Defined.

(** ** Members of a group *)






(** ** Building the catalog *)








(** ** The refresh gate *)

(** C9: the refresh interval is 30 seconds.  When less than the interval
    has elapsed since the last successful rebuild and a snapshot exists,
    a refresh runs no rebuild, returns no error and leaves the manager,
    hence the snapshot served, as it was.  When a rebuild is attempted
    and fails, the manager is left as it was, so the previous snapshot
    keeps being served, and the failure is the result of that call only:
    later calls behave as if it had not happened. *)
Theorem C9_refresh_gate {clusterSnapshot : Type} (m : clusterManager clusterSnapshot)
  (now stamp : Z) (build : result (option clusterSnapshot)) :
  refreshInterval = 30 * Second /\
  (now - lastRefresh m < refreshInterval -> clusterSnapshotOf m <> None ->
   Refresh m now build stamp = (m, Served, None)) /\
  (forall err m' result,
     Refresh m now (Err err) stamp = (m', Rebuilt, result) ->
     m' = m /\ result = Some err /\ getClusterState m' = getClusterState m) /\
  (forall err,
     refreshInterval <= now - lastRefresh m \/ clusterSnapshotOf m = None ->
     Refresh m now (Err err) stamp = (m, Rebuilt, Some err)) /\
  (forall err now' build' stamp',
     Refresh (fst (fst (Refresh m now (Err err) stamp))) now' build' stamp'
       = Refresh m now' build' stamp').
Proof.
  split; [reflexivity|]. split; [|split; [|split]].
  - intros Hlt Hsnap. unfold Refresh, hasSnapshot.
    destruct (Z.ltb_spec now (lastRefresh m + refreshInterval)); [|lia].
    destruct (clusterSnapshotOf m); [reflexivity|contradiction].
  - intros err m' result. unfold Refresh.
    destruct (_ && _); [discriminate|]. intros [= <- <-]. auto.
  - intros err Hopen. unfold Refresh, hasSnapshot.
    destruct Hopen as [Hlate | ->].
    + destruct (Z.ltb_spec now (lastRefresh m + refreshInterval)); [lia|]. reflexivity.
    + rewrite andb_false_r. reflexivity.
  - intros err now' build' stamp'. unfold Refresh at 2.
    destruct (_ && _); reflexivity.
Qed.

Lemma C9_refresh_gate_witness :
  Refresh managerAt100 (110 * Second) (Ok (Some 8%nat)) (111 * Second)
    = (managerAt100, Served, None) /\
  Refresh managerAt100 (130 * Second) (Err (ExternalError "unreachable")) (131 * Second)
    = (managerAt100, Rebuilt, Some (ExternalError "unreachable")).
Proof.
  split.
  - apply (proj1 (proj2 (C9_refresh_gate managerAt100 (110 * Second) (111 * Second)
                           (Ok (Some 8%nat))))).
    + vm_compute. reflexivity.
    + discriminate.
  - apply (proj1 (proj2 (proj2 (proj2
             (C9_refresh_gate managerAt100 (130 * Second) (131 * Second)
                (Err (ExternalError "unreachable"))))))).
    left. vm_compute. discriminate.
Defined.

(** * Further properties of the code *)

(** Case analysis along the tests of the bounds parser. *)
Ltac bounds_cases :=
  repeat (simpl;
          match goal with
          | |- context [match ?a !! ?k with _ => _ end] => destruct (a !! k) eqn:?
          | |- context [match Atoi ?v with _ => _ end] => destruct (Atoi v) eqn:?
          | |- context [?x <? ?y] => destruct (Z.ltb_spec x y)
          end); simpl.

(** ** The bounds parser *)

(** X1: whenever the bounds parser fails, both returned values are 0 and
    the error is an invalid-bound error: a missing annotation is never
    what it reports. *)
Theorem X1_bounds_failure_is_zero_and_invalid (a : gmap string string)
  (mn mx : Z) (e : error) :
  parseScalingBounds a = (mn, mx, Some e) ->
  mn = 0 /\ mx = 0 /\
  boundErrorKind e = Some InvalidBoundValue /\
  e <> errMissingMinAnnotation /\ e <> errMissingMaxAnnotation.
Proof.
  unfold parseScalingBounds, minSize, maxSize.
  bounds_cases; intros [= <- <- <-]; repeat split; discriminate.
Qed.

Lemma X1_bounds_failure_is_zero_and_invalid_witness :
  boundErrorKind (Wrapf (NumError "Atoi" "x" ErrSyntax) errInvalidMinAnnotation)
    = Some InvalidBoundValue.
Proof.
  exact (proj1 (proj2 (proj2
           (X1_bounds_failure_is_zero_and_invalid (boundsOf "x" "5") 0 0 _ eq_refl)))).
Defined.

(** X2: the bounds parser succeeds with (min, max) exactly when each key
    is absent (read as 0) or holds a decimal integer, and the two values
    read satisfy 0 <= min <= max. *)
Theorem X2_bounds_success_characterised (a : gmap string string) (mn mx : Z) :
  parseScalingBounds a = (mn, mx, None) <->
  boundReads a nodeGroupMinSizeAnnotationKey mn /\
  boundReads a nodeGroupMaxSizeAnnotationKey mx /\
  0 <= mn <= mx.
Proof.
  unfold parseScalingBounds, minSize, maxSize, boundReads. split.
  - bounds_cases; intros [= <- <-]; repeat split; eauto; lia.
  - intros ([[-> ->] | (vmin & -> & ->)] & [[-> ->] | (vmax & -> & ->)] & Hle);
      bounds_cases; solve [reflexivity | lia].
Qed.

Lemma X2_bounds_success_characterised_witness :
  parseScalingBounds (onlyMin "0") = (0, 0, None).
Proof.
  apply (proj2 (X2_bounds_success_characterised (onlyMin "0") 0 0)).
  split; [right; exists "0"%string; split; reflexivity|].
  split; [left; split; reflexivity | lia].
Defined.

(** X3: bounds that parse fit a machine integer, and the subtraction
    max - min that the catalog and the resolver perform on them is exact
    (it does not wrap). *)
Theorem X3_parsed_bounds_do_not_wrap (a : gmap string string) (mn mx : Z) :
  parseScalingBounds a = (mn, mx, None) ->
  0 <= mn /\ mn <= mx /\ mx <= maxInt /\ int_sub mx mn = mx - mn.
Proof.
  intros H. pose proof (parseScalingBounds_range a mn mx H) as [[H1 H2] H3].
  repeat split; try assumption. eapply int_sub_bounds, H.
Qed.

Lemma X3_parsed_bounds_do_not_wrap_witness :
  int_sub 9223372036854775807 0 = 9223372036854775807 - 0.
Proof.
  exact (proj2 (proj2 (proj2
           (X3_parsed_bounds_do_not_wrap (boundsOf "0" "9223372036854775807")
              0 9223372036854775807 eq_refl)))).
Defined.

(** X4: an absent bound behaves as the value 0: writing "0" under a key
    that is absent changes nothing in the result of the bounds parser. *)
Theorem X4_absent_bound_is_zero (a : gmap string string) :
  (a !! nodeGroupMinSizeAnnotationKey = None ->
   parseScalingBounds (<[nodeGroupMinSizeAnnotationKey := "0"]> a)
     = parseScalingBounds a) /\
  (a !! nodeGroupMaxSizeAnnotationKey = None ->
   parseScalingBounds (<[nodeGroupMaxSizeAnnotationKey := "0"]> a)
     = parseScalingBounds a).
Proof.
  split; intros H; unfold parseScalingBounds, minSize, maxSize.
  - rewrite lookup_insert_eq, lookup_insert_ne by discriminate. rewrite H. reflexivity.
  - rewrite lookup_insert_eq, lookup_insert_ne by discriminate. rewrite H.
    destruct (a !! nodeGroupMinSizeAnnotationKey) as [vmin|];
      [destruct (Atoi vmin) as [i|erri]|]; reflexivity.
Qed.

Lemma X4_absent_bound_is_zero_witness :
  parseScalingBounds (<[nodeGroupMaxSizeAnnotationKey := "0"]> (onlyMin "3"))
    = parseScalingBounds (onlyMin "3").
Proof. exact (proj2 (X4_absent_bound_is_zero (onlyMin "3")) eq_refl). Defined.

(** ** Owner references *)

Lemma machineOwnerRef_refs_first (refs : list OwnerReference) (ref : OwnerReference) :
  machineOwnerRef_refs refs = Some ref <->
  exists pre post, refs = pre ++ ref :: post /\ namesMachineSet ref /\
                   Forall (fun r => ~ namesMachineSet r) pre.
Proof.
  unfold namesMachineSet. induction refs as [|r rest IH]; simpl.
  - split; [discriminate|]. intros (pre & post & H & _). destruct pre; discriminate.
  - destruct (String.eqb_spec (ref_Kind r) "MachineSet") as [Hk|Hk];
      [destruct (String.eqb_spec (ref_Name r) "") as [Hn|Hn]|]; simpl.
    2:{ split.
        - intros [= <-]. exists [], rest. repeat split; auto.
        - intros (pre & post & H & Hq & Hpre). destruct pre as [|r' pre].
          + injection H as ->. reflexivity.
          + injection H as -> _. inversion Hpre; subst. tauto. }
    all: rewrite IH; split.
    all: try (intros (pre & post & -> & Hq & Hpre); exists (r :: pre), post;
              repeat split; try tauto; constructor; [tauto | exact Hpre]).
    all: intros (pre & post & H & Hq & Hpre); destruct pre as [|r' pre];
      [injection H as -> _; tauto
      |injection H as -> ->; inversion Hpre; subst; exists pre, post; auto].
Qed.

Lemma machineOwnerRef_refs_none (refs : list OwnerReference) :
  machineOwnerRef_refs refs = None <-> Forall (fun r => ~ namesMachineSet r) refs.
Proof.
  unfold namesMachineSet. induction refs as [|r rest IH]; simpl.
  - split; [constructor | reflexivity].
  - destruct (String.eqb_spec (ref_Kind r) "MachineSet") as [Hk|Hk];
      [destruct (String.eqb_spec (ref_Name r) "") as [Hn|Hn]|]; simpl.
    2:{ split; [discriminate|]. intros H. inversion H; subst. tauto. }
    all: rewrite IH; split; [intros H; constructor; [tauto|exact H]
                            |intros H; inversion H; assumption].
Qed.

(** X5: the owner reference of a machine is the first entry of its
    owner-reference list whose kind is MachineSet and whose name is not
    empty; there is none exactly when no entry qualifies. *)
Theorem X5_machineOwnerRef_first_match (machine : Machine) :
  (forall ref,
     machineOwnerRef machine = Some ref <->
     exists pre post,
       m_OwnerReferences machine = pre ++ ref :: post /\ namesMachineSet ref /\
       Forall (fun r => ~ namesMachineSet r) pre) /\
  (machineOwnerRef machine = None <->
   Forall (fun r => ~ namesMachineSet r) (m_OwnerReferences machine)).
Proof.
  split; [intros ref; apply machineOwnerRef_refs_first | apply machineOwnerRef_refs_none].
Qed.

Lemma X5_machineOwnerRef_first_match_witness :
  machineOwnerRef machineTwoOwners = Some (mkRef "MachineSet" "A" "1").
Proof.
  apply (proj1 (X5_machineOwnerRef_first_match machineTwoOwners)).
  exists [mkRef "MachineSet" "" "0"], [mkRef "MachineSet" "B" "2"].
  split; [reflexivity|]. split; [split; [reflexivity|discriminate]|].
  constructor; [|constructor]. intros [_ H]. apply H. reflexivity.
Defined.

Lemma machineSetMachineDeploymentRef_refs_first (refs : list OwnerReference)
  (ref : OwnerReference) :
  machineSetMachineDeploymentRef_refs refs = Some ref <->
  exists pre post, refs = pre ++ ref :: post /\ namesMachineDeployment ref /\
                   Forall (fun r => ~ namesMachineDeployment r) pre.
Proof.
  unfold namesMachineDeployment. induction refs as [|r rest IH]; simpl.
  - split; [discriminate|]. intros (pre & post & H & _). destruct pre; discriminate.
  - destruct (String.eqb_spec (ref_Kind r) "MachineDeployment") as [Hk|Hk].
    + split.
      * intros [= <-]. exists [], rest. repeat split; auto.
      * intros (pre & post & H & Hq & Hpre). destruct pre as [|r' pre].
        -- injection H as ->. reflexivity.
        -- injection H as -> _. inversion Hpre; subst. tauto.
    + rewrite IH. split.
      * intros (pre & post & -> & Hq & Hpre). exists (r :: pre), post.
        repeat split; try tauto. constructor; [tauto | exact Hpre].
      * intros (pre & post & H & Hq & Hpre). destruct pre as [|r' pre].
        -- injection H as -> _. tauto.
        -- injection H as -> ->. inversion Hpre; subst. exists pre, post. auto.
Qed.

Lemma machineSetMachineDeploymentRef_refs_none (refs : list OwnerReference) :
  machineSetMachineDeploymentRef_refs refs = None <->
  Forall (fun r => ~ namesMachineDeployment r) refs.
Proof.
  unfold namesMachineDeployment. induction refs as [|r rest IH]; simpl.
  - split; [constructor | reflexivity].
  - destruct (String.eqb_spec (ref_Kind r) "MachineDeployment") as [Hk|Hk].
    + split; [discriminate|]. intros H. inversion H; subst. tauto.
    + rewrite IH. split; [intros H; constructor; [tauto|exact H]
                         |intros H; inversion H; assumption].
Qed.

(** X6: the deployment reference of a MachineSet is the first entry of
    its owner-reference list whose kind is MachineDeployment, whatever
    its name (an empty name is accepted); the MachineSet has a
    deployment owner reference exactly when some entry has that kind. *)
Theorem X6_deployment_ref_first_of_kind (machineSet : MachineSet) :
  (forall ref,
     machineSetMachineDeploymentRef machineSet = Some ref <->
     exists pre post,
       ms_OwnerReferences machineSet = pre ++ ref :: post /\
       ref_Kind ref = "MachineDeployment" /\
       Forall (fun r => ref_Kind r <> "MachineDeployment") pre) /\
  (machineSetHasMachineDeploymentOwnerRef machineSet = true <->
   Exists (fun r => ref_Kind r = "MachineDeployment") (ms_OwnerReferences machineSet)).
Proof.
  split.
  - intros ref. apply machineSetMachineDeploymentRef_refs_first.
  - unfold machineSetHasMachineDeploymentOwnerRef, machineSetMachineDeploymentRef.
    destruct (machineSetMachineDeploymentRef_refs (ms_OwnerReferences machineSet))
      as [ref|] eqn:E.
    + split; [intros _|reflexivity].
      apply machineSetMachineDeploymentRef_refs_first in E as (pre & post & -> & Hk & _).
      apply List.Exists_app. right. left. exact Hk.
    + split; [discriminate|]. intros HE. exfalso.
      apply machineSetMachineDeploymentRef_refs_none in E.
      rewrite List.Forall_forall in E. apply List.Exists_exists in HE as (r & Hin & Hr).
      exact (E r Hin Hr).
Qed.

Lemma X6_deployment_ref_first_of_kind_witness :
  machineSetMachineDeploymentRef setTwoDeployments
    = Some (mkRef "MachineDeployment" "" "8") /\
  machineSetHasMachineDeploymentOwnerRef setTwoDeployments = true.
Proof.
  destruct (X6_deployment_ref_first_of_kind setTwoDeployments) as [Hfirst Hhas].
  split.
  - apply Hfirst.
    exists [mkRef "MachineSet" "X" "5"], [mkRef "MachineDeployment" "D" "9"].
    split; [reflexivity|]. split; [reflexivity|].
    constructor; [discriminate|constructor].
  - apply Hhas. right. left. reflexivity.
Defined.

(** X7: a MachineSet is owned by a MachineDeployment exactly when its
    deployment reference (the first of that kind) carries the
    deployment's unique id; it then has a deployment owner reference, and
    a later reference with the right unique id does not make up for a
    first one with another unique id. *)
Theorem X7_deployment_ownership_by_first_uid (machineSet : MachineSet)
  (md : MachineDeployment) :
  (machineSetIsOwnedByMachineDeployment machineSet md = true <->
   exists ref, machineSetMachineDeploymentRef machineSet = Some ref /\
               ref_UID ref = md_UID md) /\
  (machineSetIsOwnedByMachineDeployment machineSet md = true ->
   machineSetHasMachineDeploymentOwnerRef machineSet = true) /\
  (forall pre ref post,
     ms_OwnerReferences machineSet = pre ++ ref :: post ->
     Forall (fun r => ref_Kind r <> "MachineDeployment") pre ->
     ref_Kind ref = "MachineDeployment" ->
     ref_UID ref <> md_UID md ->
     machineSetIsOwnedByMachineDeployment machineSet md = false).
Proof.
  unfold machineSetIsOwnedByMachineDeployment, machineSetHasMachineDeploymentOwnerRef.
  split; [|split].
  - destruct (machineSetMachineDeploymentRef machineSet) as [ref|].
    + rewrite String.eqb_eq. split; [eauto|]. intros (ref' & [= <-] & H). exact H.
    + split; [discriminate|]. intros (ref' & H & _). discriminate.
  - destruct (machineSetMachineDeploymentRef machineSet); [reflexivity|discriminate].
  - intros pre ref post Hrefs Hpre Hkind Huid.
    assert (machineSetMachineDeploymentRef machineSet = Some ref) as ->.
    { apply machineSetMachineDeploymentRef_refs_first. exists pre, post. auto. }
    apply String.eqb_neq, Huid.
Qed.

Lemma X7_deployment_ownership_by_first_uid_witness :
  machineSetIsOwnedByMachineDeployment setTwoDeployments deploymentD = false /\
  In (mkRef "MachineDeployment" "D" (md_UID deploymentD))
     (ms_OwnerReferences setTwoDeployments).
Proof.
  split.
  - refine (proj2 (proj2 (X7_deployment_ownership_by_first_uid setTwoDeployments deploymentD))
              [mkRef "MachineSet" "X" "5"] (mkRef "MachineDeployment" "" "8")
              [mkRef "MachineDeployment" "D" "9"] eq_refl _ eq_refl _).
    + constructor; [discriminate|constructor].
    + discriminate.
  - right. right. left. reflexivity.
Defined.

(** ** Capacity hints *)

(** X8: the three capacity hints are returned together exactly when each
    of the three parsers succeeds, with their three results; otherwise
    the error is that of memory if memory fails, else that of cpu if cpu
    fails, else that of pods. *)
Theorem X8_capacity_values_all_or_first_error {Quantity : Type}
  (PQ : string -> result Quantity) (a : gmap string string) :
  (forall cpu mem pods,
     parseCapacityValues PQ a = Ok (cpu, mem, pods) <->
     parseCPUCapacity PQ a = Ok cpu /\ parseMemoryCapacity PQ a = Ok mem /\
     parsePodCapacity PQ a = Ok pods) /\
  (forall err, parseMemoryCapacity PQ a = Err err -> parseCapacityValues PQ a = Err err) /\
  (forall mem err,
     parseMemoryCapacity PQ a = Ok mem -> parseCPUCapacity PQ a = Err err ->
     parseCapacityValues PQ a = Err err) /\
  (forall mem cpu err,
     parseMemoryCapacity PQ a = Ok mem -> parseCPUCapacity PQ a = Ok cpu ->
     parsePodCapacity PQ a = Err err ->
     parseCapacityValues PQ a = Err err).
Proof.
  unfold parseCapacityValues. repeat split.
  - destruct (parseMemoryCapacity PQ a); [|discriminate].
    destruct (parseCPUCapacity PQ a); [|discriminate].
    destruct (parsePodCapacity PQ a); [|discriminate]. congruence.
  - destruct (parseMemoryCapacity PQ a); [|discriminate].
    destruct (parseCPUCapacity PQ a); [|discriminate].
    destruct (parsePodCapacity PQ a); [|discriminate]. congruence.
  - destruct (parseMemoryCapacity PQ a); [|discriminate].
    destruct (parseCPUCapacity PQ a); [|discriminate].
    destruct (parsePodCapacity PQ a); [|discriminate]. congruence.
  - intros (-> & -> & ->). reflexivity.
  - intros err ->. reflexivity.
  - intros mem err -> ->. reflexivity.
  - intros mem cpu err -> -> ->. reflexivity.
Qed.

Lemma X8_capacity_values_all_or_first_error_witness :
  parseCapacityValues parseTwo capacityGood = Ok (Some 2, Some 4294967296, None) /\
  parseCapacityValues parseTwo capacityMixed
    = Err (ExternalError "quantities must match the regular expression").
Proof.
  destruct (X8_capacity_values_all_or_first_error parseTwo capacityGood) as (Hall & _).
  destruct (X8_capacity_values_all_or_first_error parseTwo capacityMixed) as (_ & Hmem & _).
  split.
  - apply Hall. repeat split; reflexivity.
  - apply Hmem. reflexivity.
Defined.

(** X9: each capacity parser returns a hint only for a key that is
    present with a non-empty value the quantity parser accepts, and the
    hint is the parsed quantity; it fails only on a present, non-empty
    value the quantity parser rejects, with the parser's error; an absent
    key or an empty value gives no hint. *)
Theorem X9_capacity_hint_characterised {Quantity : Type}
  (PQ : string -> result Quantity) (key : string) (a : gmap string string) :
  (parseCPUCapacity PQ a = parseCapacity PQ nodeGroupInstanceCPUCapacity a /\
   parseMemoryCapacity PQ a = parseCapacity PQ nodeGroupInstanceMemoryCapacity a /\
   parsePodCapacity PQ a = parseCapacity PQ nodeGroupInstancePodCapacity a) /\
  (forall q,
     parseCapacity PQ key a = Ok (Some q) <->
     exists val, a !! key = Some val /\ val <> "" /\ PQ val = Ok q) /\
  (forall err,
     parseCapacity PQ key a = Err err <->
     exists val, a !! key = Some val /\ val <> "" /\ PQ val = Err err) /\
  (parseCapacity PQ key a = Ok None <-> a !! key = None \/ a !! key = Some "").
Proof.
  split; [repeat split|].
  unfold parseCapacity.
  destruct (a !! key) as [val|]; [destruct (String.eqb_spec val "") as [->|Hne]|]; simpl.
  - repeat split; try discriminate; try (intros (v & [= <-] & H & _); contradiction); auto.
  - destruct (PQ val) as [q'|err'] eqn:HPQ; repeat split; try discriminate.
    + intros [= <-]. eauto.
    + intros (v & [= <-] & _ & H). congruence.
    + intros (v & [= <-] & _ & H). congruence.
    + intros [H | [= H]]; [discriminate | contradiction].
    + intros (v & [= <-] & _ & H). congruence.
    + intros [= <-]. eauto.
    + intros (v & [= <-] & _ & H). congruence.
    + intros [H | [= H]]; [discriminate | contradiction].
  - repeat split; try discriminate; try (intros (v & H & _); discriminate); auto.
Qed.

Lemma X9_capacity_hint_characterised_witness :
  parseCapacity parseTwo nodeGroupInstanceMemoryCapacity capacityGood
    = Ok (Some 4294967296).
Proof.
  apply (proj1 (proj2 (X9_capacity_hint_characterised parseTwo
                         nodeGroupInstanceMemoryCapacity capacityGood))).
  exists "4Gi"%string. split; [reflexivity|]. split; [discriminate|reflexivity].
Defined.

(** ** Indexing and lookups *)

(** X10: the provider-ID index functions give an object at most one key
    and never the empty key: a Machine is indexed under its provider ID
    when it has a non-empty one, a Node likewise, and an object of
    another kind is indexed under nothing. *)
Theorem X10_provider_id_index_keys (obj : Obj) (key : string) :
  (In key (indexMachineByProviderID obj) <->
   exists machine, obj = ObjMachine machine /\
                   m_ProviderID machine = Some key /\ key <> "") /\
  (In key (indexNodeByProviderID obj) <->
   exists node, obj = ObjNode node /\ node_ProviderID node = key /\ key <> "") /\
  (length (indexMachineByProviderID obj) <= 1)%nat /\
  (length (indexNodeByProviderID obj) <= 1)%nat.
Proof.
  unfold indexMachineByProviderID, indexNodeByProviderID.
  split; [|split; [|split]].
  - destruct obj as [n|m|s|d]; try (split; [contradiction|intros (? & ? & _); discriminate]).
    destruct (m_ProviderID m) as [p|] eqn:Hp.
    + destruct (String.eqb_spec p "") as [->|Hne]; simpl.
      * split; [contradiction|]. intros (m' & [= <-] & H & Hk). congruence.
      * split.
        -- intros [<- | []]. eauto.
        -- intros (m' & [= <-] & H & _). left. congruence.
    + split; [contradiction|]. intros (m' & [= <-] & H & _). congruence.
  - destruct obj as [n|m|s|d]; try (split; [contradiction|intros (? & ? & _); discriminate]).
    destruct (String.eqb_spec (node_ProviderID n) "") as [He|Hne]; simpl.
    + split; [contradiction|]. intros (n' & [= <-] & H & Hk). congruence.
    + split.
      * intros [<- | []]. eauto.
      * intros (n' & [= <-] & H & _). left. exact H.
  - destruct obj as [n|m|s|d]; simpl; try lia.
    destruct (m_ProviderID m) as [p|]; [destruct (negb _)|]; simpl; lia.
  - destruct obj as [n|m|s|d]; simpl; try lia.
    destruct (negb _); simpl; lia.
Qed.

Lemma X10_provider_id_index_keys_witness :
  In "aws:///i-1"%string (indexMachineByProviderID (ObjMachine machineA1)).
Proof.
  apply (proj1 (X10_provider_id_index_keys (ObjMachine machineA1) "aws:///i-1")).
  exists machineA1. split; [reflexivity|]. split; [reflexivity|discriminate].
Defined.

(** X11: the owner lookup of a machine returns a MachineSet exactly when
    the machine has an owner reference, the MachineSet store holds a
    MachineSet under the machine's own namespace and the referenced
    name, and its unique id is the reference's.  It fails exactly when
    the machine has an owner reference and the store fails (that error)
    or holds an object of another kind under the key (the internal
    error). *)
Theorem X11_owner_lookup_characterised (c : machineController) (machine : Machine) :
  (forall machineSet,
     findMachineOwner c machine = Ok (Some machineSet) <->
     exists ref,
       machineOwnerRef machine = Some ref /\
       GetByKey (machineSetInformer c)
                (storeKey (m_Namespace machine) (ref_Name ref))
         = Ok (Some (ObjMachineSet machineSet)) /\
       ref_UID ref = ms_UID machineSet) /\
  (forall err,
     findMachineOwner c machine = Err err <->
     exists ref,
       machineOwnerRef machine = Some ref /\
       (GetByKey (machineSetInformer c)
                 (storeKey (m_Namespace machine) (ref_Name ref)) = Err err \/
        err = InternalUnexpectedType /\
        exists obj,
          GetByKey (machineSetInformer c)
                   (storeKey (m_Namespace machine) (ref_Name ref)) = Ok (Some obj) /\
          forall machineSet, obj <> ObjMachineSet machineSet)).
Proof.
  unfold findMachineOwner, machineIsOwnedByMachineSet.
  destruct (machineOwnerRef machine) as [ref|] eqn:Href.
  2:{ split; intros x; (split; [discriminate|]); intros (r & H & _); discriminate. }
  destruct (GetByKey _ _) as [[obj|]|e] eqn:Hget.
  - destruct obj as [n|m|s|d].
    2,4: split; intros x; split;
      [discriminate
      |intros (r & [= <-] & H & _); congruence
      |intros [= <-]; exists ref; split; eauto;
       right; split; eauto; eexists; split; eauto; discriminate
      |intros (r & [= <-] & [H | (-> & _)]); congruence].
    + split; intros x; split;
      [discriminate
      |intros (r & [= <-] & H & _); congruence
      |intros [= <-]; exists ref; split; eauto;
       right; split; eauto; eexists; split; eauto; discriminate
      |intros (r & [= <-] & [H | (-> & _)]); congruence].
    + destruct (String.eqb_spec (ref_UID ref) (ms_UID s)) as [Hu|Hu]; simpl.
      * split; intros x; split.
        -- intros [= <-]. eauto.
        -- intros (r & [= <-] & H & _). congruence.
        -- discriminate.
        -- intros (r & [= <-] & [H | (_ & o & H & Hno)]); [congruence|].
           exfalso. apply (Hno s). congruence.
      * split; intros x; split.
        -- discriminate.
        -- intros (r & [= <-] & H & Hx). congruence.
        -- discriminate.
        -- intros (r & [= <-] & [H | (_ & o & H & Hno)]); [congruence|].
           exfalso. apply (Hno s). congruence.
  - split; intros x; split; try discriminate.
    + intros (r & [= <-] & H & _). congruence.
    + intros (r & [= <-] & [H | (_ & o & H & _)]); congruence.
  - split; intros x; split; try discriminate.
    + intros (r & [= <-] & H & _). congruence.
    + intros [= <-]. eauto.
    + intros (r & [= <-] & [H | (_ & o & H & _)]); congruence.
Qed.

Lemma X11_owner_lookup_characterised_witness :
  findMachineOwner clusterA machineA1 = Ok (Some setA).
Proof.
  apply (proj1 (X11_owner_lookup_characterised clusterA machineA1)).
  exists (mkRef "MachineSet" "A" "1"). repeat split; reflexivity.
Defined.

(** X12: a machine found in the machine index under the provider ID is
    returned without the node index being consulted; only when the
    machine index has no entry is the node looked up, and the machine is
    then the one stored under the key the node's machine annotation
    holds (the empty key when the node has no such annotation).  An
    error of either index is returned as it is. *)
Theorem X12_machine_index_then_node_annotation (mak : string)
  (c : machineController) (providerID : string) :
  (forall machine,
     ByIndex (machineInformer c) machineProviderIDIndex providerID
       = Ok [ObjMachine machine] ->
     findMachineByProviderID mak c providerID = Ok (Some machine)) /\
  (forall node,
     ByIndex (machineInformer c) machineProviderIDIndex providerID = Ok [] ->
     ByIndex (nodeInformer c) nodeProviderIDIndex providerID = Ok [ObjNode node] ->
     findMachineByProviderID mak c providerID
       = findMachine c (default "" (node_Annotations node !! mak))) /\
  (forall err,
     ByIndex (machineInformer c) machineProviderIDIndex providerID = Err err ->
     findMachineByProviderID mak c providerID = Err err) /\
  (forall err,
     ByIndex (machineInformer c) machineProviderIDIndex providerID = Ok [] ->
     ByIndex (nodeInformer c) nodeProviderIDIndex providerID = Err err ->
     findMachineByProviderID mak c providerID = Err err).
Proof.
  unfold findMachineByProviderID, findNodeByProviderID. repeat split.
  - intros machine ->. reflexivity.
  - intros node -> ->. reflexivity.
  - intros err ->. reflexivity.
  - intros err -> ->. reflexivity.
Qed.

Lemma X12_machine_index_then_node_annotation_witness :
  findMachineByProviderID machineAnnotation clusterNodeStoreDown "aws:///i-1"
    = Ok (Some machineA1) /\
  findMachineByProviderID machineAnnotation clusterAnnotated "openstack:///1"
    = Ok (Some machineNoProviderID).
Proof.
  split.
  - exact (proj1 (X12_machine_index_then_node_annotation machineAnnotation
                    clusterNodeStoreDown "aws:///i-1") machineA1 eq_refl).
  - rewrite (proj1 (proj2 (X12_machine_index_then_node_annotation machineAnnotation
                    clusterAnnotated "openstack:///1")) node1Annotated eq_refl eq_refl).
    reflexivity.
Defined.

(** ** Members of a MachineSet *)

Lemma machineSetNodeNames_loop_spec (c : machineController) (machines : list Machine) :
  forall nodes ids,
    machineSetNodeNames_loop c machines nodes = Ok ids ->
    exists found,
      ids = nodes ++ found /\
      (length found <= length machines)%nat /\
      forall id, In id found <->
                 exists machine, In machine machines /\
                                 machineNode c machine = Ok (Some id).
Proof.
  induction machines as [|machine rest IH]; simpl; intros nodes ids.
  - intros [= <-]. exists []. rewrite app_nil_r. split; [reflexivity|].
    split; [reflexivity|]. intros id. split; [contradiction|]. intros (m & [] & _).
  - destruct (machineNode c machine) as [[id0|]|err] eqn:Hm; [| |discriminate].
    + intros H. apply IH in H as (found & -> & Hlen & Hin).
      exists (id0 :: found). rewrite <- app_assoc. split; [reflexivity|].
      split; [simpl; lia|]. intros id. simpl. rewrite Hin. split.
      * intros [<- | (m & Hm' & Hid)]; eauto.
      * intros (m & [<- | Hm'] & Hid); [left; congruence | eauto].
    + intros H. apply IH in H as (found & -> & Hlen & Hin).
      exists found. split; [reflexivity|]. split; [lia|].
      intros id. rewrite Hin. split.
      * intros (m & Hm' & Hid). eauto.
      * intros (m & [<- | Hm'] & Hid); [congruence | eauto].
Qed.

Lemma machineSetNodeNames_loop_first_error (c : machineController)
  (pre : list Machine) (machine : Machine) (post : list Machine) (err : error) :
  Forall (fun m => exists o, machineNode c m = Ok o) pre ->
  machineNode c machine = Err err ->
  forall nodes, machineSetNodeNames_loop c (pre ++ machine :: post) nodes = Err err.
Proof.
  intros Hpre Hm. induction Hpre as [|m pre (o & Ho) _ IH]; intros nodes; simpl.
  - rewrite Hm. reflexivity.
  - rewrite Ho. destruct o; apply IH.
Qed.

(** X14: the loop of the node listing, run over any machines, returns
    the ids it was given followed by exactly the provider IDs those
    machines resolve to, at most one per machine: a machine that
    resolves to no node adds nothing. *)
Theorem X14_node_names_are_the_resolved_machines (c : machineController)
  (machines : list Machine) (nodes ids : list string) :
  machineSetNodeNames_loop c machines nodes = Ok ids ->
  exists found,
    ids = nodes ++ found /\
    (length found <= length machines)%nat /\
    forall id, In id found <->
               exists machine, In machine machines /\
                               machineNode c machine = Ok (Some id).
Proof. apply machineSetNodeNames_loop_spec. Qed.

Lemma X14_node_names_are_the_resolved_machines_witness :
  exists found,
    ["aws:///i-1"; "aws:///i-2"; "aws:///i-2"]%string = [] ++ found /\
    (length found <= length membersListed)%nat /\
    forall id, In id found <->
               exists machine, In machine membersListed /\
                               machineNode clusterMembers machine = Ok (Some id).
Proof.
  apply (X14_node_names_are_the_resolved_machines clusterMembers membersListed []).
  vm_compute. reflexivity.
Defined.

(** X15: the loop of the node listing fails with the error of the first
    machine whose resolution fails, whatever comes after it.  Resolving
    a machine fails only when the provider-ID lookup of its node fails
    (that error) or when the lookup of its referenced node by name fails,
    which is reported as an unknown node, without the cause. *)
Theorem X15_node_names_errors (c : machineController) :
  (forall pre machine post nodes err,
     Forall (fun m => exists o, machineNode c m = Ok o) pre ->
     machineNode c machine = Err err ->
     machineSetNodeNames_loop c (pre ++ machine :: post) nodes = Err err) /\
  (forall machine err,
     machineNode c machine = Err err ->
     (exists providerID,
        m_ProviderID machine = Some providerID /\ providerID <> "" /\
        findNodeByProviderID c providerID = Err err) \/
     (exists nodeRef cause,
        m_NodeRef machine = Some nodeRef /\ oref_Kind nodeRef = "Node" /\
        findNodeByNodeName c (oref_Name nodeRef) = Err cause /\
        err = UnknownNode (oref_Name nodeRef))).
Proof.
  split.
  - intros pre machine post nodes err Hpre Hm.
    apply machineSetNodeNames_loop_first_error; assumption.
  - intros machine err.
    assert (nodeByNodeRef c machine = Err err ->
            exists nodeRef cause,
              m_NodeRef machine = Some nodeRef /\ oref_Kind nodeRef = "Node" /\
              findNodeByNodeName c (oref_Name nodeRef) = Err cause /\
              err = UnknownNode (oref_Name nodeRef)) as Href.
    { unfold nodeByNodeRef. destruct (m_NodeRef machine) as [nodeRef|]; [|discriminate].
      destruct (String.eqb_spec (oref_Kind nodeRef) "Node") as [Hk|Hk]; [|discriminate].
      simpl. destruct (findNodeByNodeName c _) as [[node|]|cause] eqn:Hn; try discriminate.
      intros [= <-]. eauto 6. }
    unfold machineNode. destruct (m_ProviderID machine) as [p|]; [|auto].
    destruct (String.eqb_spec p "") as [->|Hne]; simpl; [auto|].
    destruct (findNodeByProviderID c p) as [[node|]|e] eqn:Hp; [discriminate|auto|].
    intros [= <-]. left. eauto.
Qed.

Lemma X15_node_names_errors_witness :
  machineSetNodeNames_loop clusterNodeStoreDown
    ([machineNoRef] ++ machineByRef :: [machineA1]) [] = Err (UnknownNode "node-2") /\
  machineSetNodeNames_loop clusterDuplicates ([] ++ machineA1 :: [machineByRef]) []
    = Err (InternalExpectedLen1 2).
Proof.
  split.
  - refine (proj1 (X15_node_names_errors clusterNodeStoreDown)
              [machineNoRef] machineByRef [machineA1] [] _ _ eq_refl).
    constructor; [|constructor]. exists None. reflexivity.
  - refine (proj1 (X15_node_names_errors clusterDuplicates)
              [] machineA1 [machineByRef] [] _ _ eq_refl).
    constructor.
Defined.

(** ** Enumerating MachineSets *)

(** X16: the MachineSet filter visits the listed MachineSets in order,
    threading the state of the function it is given, and stops at the
    first one for which the function returns an error: over a
    concatenation it runs the first part, and the second part only when
    the first part returned no error. *)
Theorem X16_filter_stops_at_first_error {St : Type} (f : machineSetFilterFunc St)
  (first second : list MachineSet) (st : St) :
  filterMachineSets_loop f (first ++ second) st =
    match filterMachineSets_loop f first st with
    | (st', Some err) => (st', Some err)
    | (st', None) => filterMachineSets_loop f second st'
    end.
Proof.
  revert st. induction first as [|machineSet rest IH]; intros st; simpl.
  - reflexivity.
  - destruct (f machineSet st) as [st' [err|]]; [reflexivity|apply IH].
Qed.



(** ** The catalog, exactly *)

Lemma canScale_iff (resource : scalableResource) (a : gmap string string)
  (ng : nodegroup) (replicas : option Z) :
  newNodegroup resource a = Ok ng ->
  canScale ng replicas = true <->
  0 < MaxSize ng - MinSize ng /\ 0 < Int32PtrDerefOr replicas 0.
Proof.
  intros Hng. unfold canScale. rewrite (newNodegroup_int_sub _ _ _ Hng).
  rewrite andb_true_iff, !Z.ltb_lt. reflexivity.
Qed.

Lemma filterMachineSets_loop_members (c : machineController)
  (machineSets : list MachineSet) :
  forall nodegroups groups,
    filterMachineSets_loop (machineSetNodeGroups_func c) machineSets nodegroups
      = (groups, None) ->
    forall ng,
      In ng groups <->
      In ng nodegroups \/
      exists machineSet,
        In machineSet machineSets /\
        machineSetHasMachineDeploymentOwnerRef machineSet = false /\
        newNodegroupFromMachineSet c machineSet = Ok ng /\
        canScale ng (ms_Replicas machineSet) = true.
Proof.
  induction machineSets as [|machineSet rest IH]; simpl; intros acc groups.
  - intros [= <-] ng. split; [auto|]. intros [H | (ms & [] & _)]. exact H.
  - destruct (machineSetNodeGroups_func c machineSet acc) as [st' [err|]] eqn:Hf;
      [discriminate|].
    intros H ng. rewrite (IH _ _ H ng). clear IH H.
    unfold machineSetNodeGroups_func in Hf.
    destruct (machineSetHasMachineDeploymentOwnerRef machineSet) eqn:Hown.
    { injection Hf as <-. split.
      - intros [H | (ms & Hin & Hrest)]; [auto|right; exists ms; auto].
      - intros [H | (ms & [<- | Hin] & Ho & Hrest)]; [auto|congruence|].
        right. exists ms. auto. }
    destruct (newNodegroupFromMachineSet c machineSet) as [ng0|err] eqn:Hng; [|discriminate].
    destruct (canScale ng0 (ms_Replicas machineSet)) eqn:Hscale; injection Hf as <-.
    + rewrite in_app_iff. simpl. split.
      * intros [[H | [<- | []]] | (ms & Hin & Hrest)]; [auto| |right; exists ms; auto].
        right. exists machineSet. auto.
      * intros [H | (ms & [<- | Hin] & Ho & Hb & Hs)]; [auto| |right; exists ms; auto].
        left. right. left. congruence.
    + split.
      * intros [H | (ms & Hin & Hrest)]; [auto|right; exists ms; auto].
      * intros [H | (ms & [<- | Hin] & Ho & Hb & Hs)]; [auto|congruence|].
        right. exists ms. auto.
Qed.

Lemma machineDeploymentNodeGroups_loop_members (c : machineController)
  (mds : list MachineDeployment) :
  forall nodegroups groups,
    machineDeploymentNodeGroups_loop c mds nodegroups = Ok groups ->
    forall ng,
      In ng groups <->
      In ng nodegroups \/
      exists md,
        In md mds /\
        newNodegroupFromMachineDeployment c md = Ok ng /\
        canScale ng (md_Replicas md) = true.
Proof.
  induction mds as [|md rest IH]; simpl; intros acc groups.
  - intros [= <-] ng. split; [auto|]. intros [H | (d & [] & _)]. exact H.
  - destruct (newNodegroupFromMachineDeployment c md) as [ng0|err] eqn:Hng; [|discriminate].
    destruct (canScale ng0 (md_Replicas md)) eqn:Hscale;
      intros H ng; rewrite (IH _ _ H ng); clear IH H.
    + rewrite in_app_iff. simpl. split.
      * intros [[H | [<- | []]] | (d & Hin & Hrest)]; [auto| |right; exists d; auto].
        right. exists md. auto.
      * intros [H | (d & [<- | Hin] & Hb & Hs)]; [auto| |right; exists d; auto].
        left. right. left. congruence.
    + split.
      * intros [H | (d & Hin & Hrest)]; [auto|right; exists d; auto].
      * intros [H | (d & [<- | Hin] & Hb & Hs)]; [auto|congruence|].
        right. exists d. auto.
Qed.

(** X19: each enumeration loop of the catalog, when it returns no
    error, yields the groups it was given and, besides, exactly the
    groups built from the MachineSets of its list that have no
    deployment owner reference, a positive max - min and a positive
    replica count (for the deployment loop: from the MachineDeployments
    of its list with a positive max - min and a positive replica
    count). *)
Theorem X19_enumeration_is_exact (c : machineController) :
  (forall machineSets nodegroups groups,
     filterMachineSets_loop (machineSetNodeGroups_func c) machineSets nodegroups
       = (groups, None) ->
     forall ng,
       In ng groups <->
       In ng nodegroups \/
       exists machineSet,
         In machineSet machineSets /\
         machineSetHasMachineDeploymentOwnerRef machineSet = false /\
         newNodegroupFromMachineSet c machineSet = Ok ng /\
         0 < MaxSize ng - MinSize ng /\
         0 < Int32PtrDerefOr (ms_Replicas machineSet) 0) /\
  (forall mds nodegroups groups,
     machineDeploymentNodeGroups_loop c mds nodegroups = Ok groups ->
     forall ng,
       In ng groups <->
       In ng nodegroups \/
       exists md,
         In md mds /\
         newNodegroupFromMachineDeployment c md = Ok ng /\
         0 < MaxSize ng - MinSize ng /\
         0 < Int32PtrDerefOr (md_Replicas md) 0).
Proof.
  split.
  - intros machineSets nodegroups groups Hloop ng.
    rewrite (filterMachineSets_loop_members _ _ _ _ Hloop ng). split.
    + intros [H | (ms & Hin & Ho & Hb & Hs)]; [auto|]. right. exists ms.
      apply (canScale_iff _ _ _ _ Hb) in Hs. tauto.
    + intros [H | (ms & Hin & Ho & Hb & Hs)]; [auto|]. right. exists ms.
      repeat split; try assumption. apply (canScale_iff _ _ _ _ Hb). exact Hs.
  - intros mds nodegroups groups Hloop ng.
    rewrite (machineDeploymentNodeGroups_loop_members _ _ _ _ Hloop ng). split.
    + intros [H | (md & Hin & Hb & Hs)]; [auto|]. right. exists md.
      apply (canScale_iff _ _ _ _ Hb) in Hs. tauto.
    + intros [H | (md & Hin & Hb & Hs)]; [auto|]. right. exists md.
      repeat split; try assumption. apply (canScale_iff _ _ _ _ Hb). exact Hs.
Qed.

Lemma X19_enumeration_is_exact_witness :
  filterMachineSets_loop (machineSetNodeGroups_func clusterAB) [setA; setB] []
    = ([groupA], None) /\
  In groupA [groupA] /\ ~ In groupB [groupA].
Proof.
  pose proof (proj1 (X19_enumeration_is_exact clusterAB) [setA; setB] [] [groupA] eq_refl)
    as H.
  split; [reflexivity|]. split.
  - apply H. right. exists setA.
    split; [left; reflexivity|]. repeat split; reflexivity.
  - intros Hin. apply H in Hin as [[] | (ms & [<- | [<- | []]] & _ & Hb & Hrange & _)].
    + vm_compute in Hb. discriminate.
    + vm_compute in Hrange. discriminate.
Defined.

(** ** The resolver against the catalog *)

Lemma nodeGroups_eligible (c : machineController) (groups : list nodegroup) :
  nodeGroups c = Ok groups -> Forall eligible groups.
Proof.
  unfold nodeGroups.
  destruct (machineSetNodeGroups c) as [l1|] eqn:H1; [|discriminate].
  destruct (machineDeploymentNodeGroups c) as [l2|] eqn:H2; [|discriminate].
  intros [= <-]. apply Forall_app.
  split;
    [apply (machineSetNodeGroups_eligible c) | apply (machineDeploymentNodeGroups_eligible c)];
    assumption.
Qed.

(** X20: the resolver applies neither the replica test of the catalog
    nor, with deployment grouping disabled, its deployment-owner test: a
    node whose resolved group has max - min >= 1 is answered with that
    group even when the group wraps a MachineSet that has a deployment
    owner reference or has no positive replica count, and such a group
    is in no catalog. *)
Theorem X20_resolver_returns_groups_outside_catalog (mak : string)
  (c : machineController) (node : Node) (ng : nodegroup) :
  resolvesTo mak c node ng ->
  1 <= MaxSize ng - MinSize ng ->
  wrapsOwnedMachineSet ng = true \/ replicasOf ng <= 0 ->
  nodeGroupForNode mak c node = Ok (Some ng) /\
  forall groups, nodeGroups c = Ok groups -> ~ In ng groups.
Proof.
  intros Hres Hrange Hout. split.
  - rewrite (nodeGroupForNode_resolved _ _ _ _ Hres).
    destruct (Z.ltb_spec (MaxSize ng - MinSize ng) 1); [lia|reflexivity].
  - intros groups Hcat Hin. apply nodeGroups_eligible in Hcat.
    rewrite List.Forall_forall in Hcat. destruct (Hcat ng Hin) as (Hown & _ & Hrep).
    destruct Hout; [congruence|lia].
Qed.

Lemma X20_resolver_returns_groups_outside_catalog_witness :
  nodeGroupForNode machineAnnotation clusterOwnedDisabled node1 = Ok (Some groupOwnedA) /\
  nodeGroups clusterOwnedDisabled = Ok [].
Proof.
  split; [|vm_compute; reflexivity].
  apply (X20_resolver_returns_groups_outside_catalog machineAnnotation
           clusterOwnedDisabled node1 groupOwnedA).
  - apply (ResolvesToMachineSet _ _ _ _ machineA1 setOwnedByD);
      [vm_compute; reflexivity | vm_compute; reflexivity | left; reflexivity
      | vm_compute; reflexivity].
  - vm_compute. discriminate.
  - left. reflexivity.
Defined.

(** X21: with deployment grouping enabled, the MachineDeployment of a
    MachineSet is taken from the store by the referenced name alone: a
    stored deployment of that name is used for the node's group even
    when its unique id is not the one of the owner reference. *)
Theorem X21_deployment_is_resolved_by_name_only (mak : string)
  (c : machineController) (node : Node) (machine : Machine)
  (machineSet : MachineSet) (ref : OwnerReference) (md : MachineDeployment)
  (ng : nodegroup) :
  enableMachineDeployments c = true ->
  findMachineByProviderID mak c (node_ProviderID node) = Ok (Some machine) ->
  findMachineOwner c machine = Ok (Some machineSet) ->
  machineSetMachineDeploymentRef machineSet = Some ref ->
  GetByKey (machineDeploymentInformer c)
           (storeKey (ms_Namespace machineSet) (ref_Name ref))
    = Ok (Some (ObjMachineDeployment md)) ->
  ref_UID ref <> md_UID md ->
  newNodegroupFromMachineDeployment c md = Ok ng ->
  1 <= MaxSize ng - MinSize ng ->
  machineSetIsOwnedByMachineDeployment machineSet md = false /\
  nodeGroupForNode mak c node = Ok (Some ng).
Proof.
  intros Hen Hm Hown Href Hget Huid Hng Hrange. split.
  - unfold machineSetIsOwnedByMachineDeployment. rewrite Href.
    apply String.eqb_neq, Huid.
  - assert (resolvesTo mak c node ng) as Hres.
    { apply (ResolvesToMachineDeployment _ _ _ _ machine machineSet ref md); try assumption.
      unfold findMachineDeployment. rewrite Hget. reflexivity. }
    rewrite (nodeGroupForNode_resolved _ _ _ _ Hres).
    destruct (Z.ltb_spec (MaxSize ng - MinSize ng) 1); [lia|reflexivity].
Qed.

Lemma X21_deployment_is_resolved_by_name_only_witness :
  machineSetIsOwnedByMachineDeployment setOwnedByD deploymentRecreated = false /\
  nodeGroupForNode machineAnnotation clusterRecreated node1 = Ok (Some groupRecreated).
Proof.
  apply (X21_deployment_is_resolved_by_name_only machineAnnotation clusterRecreated
           node1 machineA1 setOwnedByD refD deploymentRecreated groupRecreated);
    try (vm_compute; reflexivity); vm_compute; discriminate.
Defined.

(** X22: when the group of a node cannot be built because the bounds of
    its MachineSet (or, with deployment grouping enabled, of its
    MachineDeployment) are invalid, the resolver fails with an error that
    names the node and carries the bounds error; a failure of the
    deployment store is reported as an unknown deployment with its
    cause. *)
Theorem X22_resolver_build_errors (mak : string) (c : machineController)
  (node : Node) (machine : Machine) (machineSet : MachineSet) :
  findMachineByProviderID mak c (node_ProviderID node) = Ok (Some machine) ->
  findMachineOwner c machine = Ok (Some machineSet) ->
  (forall mn mx err,
     enableMachineDeployments c = false \/
       machineSetMachineDeploymentRef machineSet = None ->
     parseScalingBounds (ms_Annotations machineSet) = (mn, mx, Some err) ->
     nodeGroupForNode mak c node = Err (FailedToBuildNodegroup (node_Name node) err)) /\
  (forall ref md mn mx err,
     enableMachineDeployments c = true ->
     machineSetMachineDeploymentRef machineSet = Some ref ->
     findMachineDeployment c (storeKey (ms_Namespace machineSet) (ref_Name ref))
       = Ok (Some md) ->
     parseScalingBounds (md_Annotations md) = (mn, mx, Some err) ->
     nodeGroupForNode mak c node = Err (FailedToBuildNodegroup (node_Name node) err)) /\
  (forall ref err,
     enableMachineDeployments c = true ->
     machineSetMachineDeploymentRef machineSet = Some ref ->
     findMachineDeployment c (storeKey (ms_Namespace machineSet) (ref_Name ref))
       = Err err ->
     nodeGroupForNode mak c node
       = Err (UnknownMachineDeploymentCause
                (storeKey (ms_Namespace machineSet) (ref_Name ref)) err)).
Proof.
  intros Hm Hown. unfold nodeGroupForNode. rewrite Hm, Hown.
  unfold newNodegroupFromMachineSet, newNodegroupFromMachineDeployment, newNodegroup.
  split; [|split].
  - intros mn mx err Hms Hb. rewrite Hb. simpl.
    destruct Hms as [-> | ->]; [reflexivity|].
    destruct (enableMachineDeployments c); reflexivity.
  - intros ref md mn mx err -> -> -> ->. reflexivity.
  - intros ref err -> -> ->. reflexivity.
Qed.

Lemma X22_resolver_build_errors_witness :
  nodeGroupForNode machineAnnotation clusterBad node7
    = Err (FailedToBuildNodegroup "node-7" errInvalidMaxAnnotation).
Proof.
  exact (proj1 (X22_resolver_build_errors machineAnnotation clusterBad node7
                  machineBad1 setBad eq_refl eq_refl)
           0 0 errInvalidMaxAnnotation (or_introl eq_refl) eq_refl).
Defined.

(** ** The cluster manager *)

(** X23: a refresh whose gate is open and whose rebuild succeeds installs
    the new snapshot and the new time stamp and returns no error.  With
    a snapshot installed, later calls are served from it strictly before
    stamp + 30 s and rebuild from stamp + 30 s on; when the rebuild
    returned no snapshot, every later call rebuilds. *)
Theorem X23_refresh_installs_snapshot_and_stamp {clusterSnapshot : Type}
  (m : clusterManager clusterSnapshot) (now stamp : Z) (s : option clusterSnapshot) :
  refreshInterval <= now - lastRefresh m \/ clusterSnapshotOf m = None ->
  Refresh m now (Ok s) stamp
    = ({| lastRefresh := stamp; clusterSnapshotOf := s |}, Rebuilt, None) /\
  getClusterState (fst (fst (Refresh m now (Ok s) stamp))) = s /\
  (forall now' build' stamp',
     s <> None -> now' < stamp + refreshInterval ->
     Refresh {| lastRefresh := stamp; clusterSnapshotOf := s |} now' build' stamp'
       = ({| lastRefresh := stamp; clusterSnapshotOf := s |}, Served, None)) /\
  (forall now' build' stamp',
     s = None \/ stamp + refreshInterval <= now' ->
     snd (fst (Refresh {| lastRefresh := stamp; clusterSnapshotOf := s |}
                       now' build' stamp')) = Rebuilt).
Proof.
  intros Hopen.
  assert (Refresh m now (Ok s) stamp
          = ({| lastRefresh := stamp; clusterSnapshotOf := s |}, Rebuilt, None)) as E.
  { unfold Refresh, hasSnapshot, setClusterState. simpl.
    destruct Hopen as [Hlate | ->].
    - destruct (Z.ltb_spec now (lastRefresh m + refreshInterval)); [lia|]. reflexivity.
    - rewrite andb_false_r. reflexivity. }
  split; [exact E|]. split; [rewrite E; reflexivity|]. split.
  - intros now' build' stamp' Hs Hlt. unfold Refresh, hasSnapshot. simpl.
    destruct (Z.ltb_spec now' (stamp + refreshInterval)); [|lia].
    destruct s; [reflexivity|contradiction].
  - intros now' build' stamp' Hs. unfold Refresh, hasSnapshot. simpl.
    destruct Hs as [-> | Hlate].
    + rewrite andb_false_r. destruct build'; reflexivity.
    + destruct (Z.ltb_spec now' (stamp + refreshInterval)); [lia|].
      destruct build'; reflexivity.
Qed.

Lemma X23_refresh_installs_snapshot_and_stamp_witness :
  Refresh managerAt100 (130 * Second) (Ok (Some 8%nat)) (131 * Second)
    = ({| lastRefresh := 131 * Second; clusterSnapshotOf := Some 8%nat |},
       Rebuilt, None).
Proof.
  apply (X23_refresh_installs_snapshot_and_stamp managerAt100 (130 * Second)
           (131 * Second) (Some 8%nat)).
  left. vm_compute. discriminate.
Defined.

Lemma In_map_values {A : Type} (m : gmap string A) (x : A) :
  In x (snd <$> map_to_list m) <-> exists key, m !! key = Some x.
Proof.
  rewrite <- list_elem_of_In, list_elem_of_fmap. split.
  - intros ([key y] & -> & Hin). exists key. apply elem_of_map_to_list, Hin.
  - intros (key & Hkey). exists (key, x). split; [reflexivity|].
    apply elem_of_map_to_list, Hkey.
Qed.

(** X24: the machine sets the cluster manager lists are exactly those of
    the snapshot whose max - min, as the machine subtracts, is positive;
    the namespace asked for plays no part. *)
Theorem X24_listed_machine_sets {MachineSetT : Type}
  (MinSizeOf MaxSizeOf : MachineSetT -> Z)
  (m : clusterManager (snapshotMaps MachineSetT)) (snapshot : snapshotMaps MachineSetT) :
  getClusterState m = Some snapshot ->
  (forall namespace, exists listed,
     GetMachineSets MinSizeOf MaxSizeOf m namespace = Some listed /\
     forall ms,
       In ms listed <->
       (exists key, MachineSetMap snapshot !! key = Some ms) /\
       0 < int_sub (MaxSizeOf ms) (MinSizeOf ms)) /\
  (forall namespace namespace',
     GetMachineSets MinSizeOf MaxSizeOf m namespace
       = GetMachineSets MinSizeOf MaxSizeOf m namespace').
Proof.
  intros Hstate. split.
  - intros namespace. unfold GetMachineSets. rewrite Hstate.
    eexists. split; [reflexivity|]. intros ms.
    rewrite filter_In, In_map_values, Z.ltb_lt. reflexivity.
  - reflexivity.
Qed.

Lemma X24_listed_machine_sets_witness :
  exists listed,
    GetMachineSets fst snd managerTwo "ns" = Some listed /\
    forall ms,
      In ms listed <->
      (exists key, MachineSetMap snapshotTwo !! key = Some ms) /\
      0 < int_sub (snd ms) (fst ms).
Proof.
  exact (proj1 (X24_listed_machine_sets fst snd managerTwo snapshotTwo eq_refl) "ns"%string).
Defined.

(** X25: the machine set of a node is the one the snapshot stores under
    the key the node maps to; a node that maps to no key, or to a key
    with no machine set, has none, without error.  No size test is
    applied: a node can be answered with a machine set that the listing
    leaves out for want of room to scale. *)
Theorem X25_machine_set_for_node {MachineSetT : Type}
  (MinSizeOf MaxSizeOf : MachineSetT -> Z)
  (m : clusterManager (snapshotMaps MachineSetT)) (snapshot : snapshotMaps MachineSetT)
  (nodename : string) :
  getClusterState m = Some snapshot ->
  (forall ms,
     MachineSetForNode m nodename = Some (Some ms) <->
     exists key, NodeToMachineSetMap snapshot !! nodename = Some key /\
                 MachineSetMap snapshot !! key = Some ms) /\
  (MachineSetForNode m nodename = Some None <->
   NodeToMachineSetMap snapshot !! nodename = None \/
   exists key, NodeToMachineSetMap snapshot !! nodename = Some key /\
               MachineSetMap snapshot !! key = None) /\
  (forall ms namespace listed,
     MachineSetForNode m nodename = Some (Some ms) ->
     int_sub (MaxSizeOf ms) (MinSizeOf ms) <= 0 ->
     GetMachineSets MinSizeOf MaxSizeOf m namespace = Some listed ->
     ~ In ms listed).
Proof.
  intros Hstate. unfold MachineSetForNode, GetMachineSets. rewrite Hstate.
  split; [|split].
  - intros ms. destruct (NodeToMachineSetMap snapshot !! nodename) as [key|].
    + split; [intros [= H]; eauto|]. intros (key' & [= <-] & H). congruence.
    + split; [discriminate|]. intros (key & H & _). discriminate.
  - destruct (NodeToMachineSetMap snapshot !! nodename) as [key|].
    + split; [intros [= H]; eauto|].
      intros [H | (key' & [= <-] & H)]; [discriminate|congruence].
    + split; auto.
  - intros ms namespace listed _ Hsize [= <-] Hin.
    apply filter_In in Hin as [_ Hpos]. apply Z.ltb_lt in Hpos. lia.
Qed.

Lemma X25_machine_set_for_node_witness :
  MachineSetForNode managerTwo "node-3" = Some (Some (2, 2)) /\
  MachineSetForNode managerTwo "node-8" = Some None.
Proof.
  split.
  - apply (proj1 (X25_machine_set_for_node fst snd managerTwo snapshotTwo "node-3" eq_refl)).
    exists "ns/B"%string. split; reflexivity.
  - apply (proj1 (proj2 (X25_machine_set_for_node fst snd managerTwo snapshotTwo
                           "node-8" eq_refl))).
    right. exists "ns/gone"%string. split; reflexivity.
Defined.
